(** * vkhr: the Vulkan instance wrapper and the Embree hair style

    A shallow embedding of [src/vkpp/instance.cc] and of
    [src/vkhr/ray_tracer/hair_style.cc], with the properties the
    specification states about them.

    Conventions.
    - C++ range-for loops are left folds over the vector, in iteration
      order; [push_back] appends at the end.
    - Calls into the Vulkan loader and into Embree are recorded in a
      trace of driver events carried by the process state.
    - [float] is IEEE-754 binary32, given by the Standard Library's
      [SpecFloat] at precision 24 and maximal exponent 128. *)

From Stdlib Require Import List String Ascii Bool Arith ZArith Lia Permutation.
From Stdlib Require Import Floats.SpecFloat.
Import ListNotations.

Set Implicit Arguments.

Local Open Scope string_scope.
Local Open Scope list_scope.

(* ================================================================== *)
(** * Capabilities: layers and extensions *)

(** Modelled from the spec: [vkpp::Layer] is declared in
    [vkpp/layer.hh], which is not part of the sources at hand.  The
    specification (section 3) describes a capability as "identified by
    name and optional version; equality is name-based". *)
Record Layer : Type := mkLayer {
  layer_name : string;
  layer_description : string;
  layer_spec_version : Z;
  layer_implementation_version : Z
}.

(** Modelled from the spec: [vkpp::Extension] is declared in
    [vkpp/extension.hh], which is not part of the sources at hand. *)
Record Extension : Type := mkExtension {
  extension_name : string;
  extension_spec_version : Z
}.

(** What [Layer] and [Extension] share: a [name] member, and a
    converting constructor from a string literal, used by
    [find({ "VK_EXT_debug_utils" }, required_extensions)]. *)
Class Capability (T : Type) : Type := {
  name : T -> string;
  of_literal : string -> T;
  name_of_literal : forall s, name (of_literal s) = s
}.

#[export] Instance Layer_Capability : Capability Layer := {
  name := layer_name;
  of_literal := fun s => mkLayer s EmptyString 0 0;
  name_of_literal := fun s => eq_refl
}.

#[export] Instance Extension_Capability : Capability Extension := {
  name := extension_name;
  of_literal := fun s => mkExtension s 0;
  name_of_literal := fun s => eq_refl
}.

(** Modelled from the spec: [operator==] of [Layer] and of [Extension]
    (defined with the types, outside the sources at hand) compares the
    names only. *)
Definition equals {T} `{Capability T} (a b : T) : bool :=
  String.eqb (name a) (name b).

Section Find.
Context {T : Type} `{Capability T}.

(** The inner loop of [Instance::find] (instance.cc:113-117 and
    131-135): the flag starts [false] and is set on every match; the
    loop does not stop at the first one. *)
Definition found_in (available : list T) (requested : T) : bool :=
  fold_left
    (fun found available_one =>
       if equals requested available_one then true else found)
    available false.

(** [Instance::find(requested, available)] (instance.cc:108-124 for
    extensions, 126-142 for layers; the two overloads have the same
    body up to the element type). *)
Definition find (requested available : list T) : list T :=
  fold_left
    (fun missing requested_one =>
       if negb (found_in available requested_one)
       then missing ++ [requested_one]
       else missing)
    requested [].

(** [Instance::collapse] (instance.cc:201-213, both overloads). *)
Definition collapse (capabilities : list T) : string :=
  fold_left
    (fun joined capability => (joined ++ (name capability ++ " "))%string)
    capabilities EmptyString.

(** A requested capability is absent when no available one is equal
    to it. *)
Definition absent_from (available : list T) (requested : T) : bool :=
  negb (existsb (equals requested) available).

(** How many entries of a list compare equal to a given one. *)
Definition occurrences (entry : T) (entries : list T) : nat :=
  List.length (filter (equals entry) entries).
End Find.


(* ================================================================== *)
(** * The process: driver, static caches and the trace of driver calls *)

Definition VkResult : Type := Z.
Definition VK_SUCCESS : VkResult := 0%Z.

(** Dispatchable and non-dispatchable Vulkan handles are opaque
    integers; [VK_NULL_HANDLE] is zero. *)
Definition VkInstance : Type := Z.
Definition VkDebugUtilsMessengerEXT : Type := Z.
Definition VK_NULL_HANDLE : Z := 0%Z.

(** The Vulkan structures filled in by the enumeration calls. *)
Record VkLayerProperties : Type := mkVkLayerProperties {
  layerName : string;
  specVersion : Z;
  implementationVersion : Z;
  description : string
}.

Record VkExtensionProperties : Type := mkVkExtensionProperties {
  extensionName : string;
  extension_specVersion : Z
}.

(** Modelled from the spec: the converting assignments
    [Layer::operator=(const VkLayerProperties&)] and
    [Extension::operator=(const VkExtensionProperties&)] used at
    instance.cc:178 and 196 are defined with the types; they copy the
    name and the versions. *)
Definition Layer_of_properties (p : VkLayerProperties) : Layer :=
  mkLayer (layerName p) (description p) (specVersion p)
          (implementationVersion p).

Definition Extension_of_properties (p : VkExtensionProperties) : Extension :=
  mkExtension (extensionName p) (extension_specVersion p).

Definition default_Layer : Layer := mkLayer EmptyString EmptyString 0 0.
Definition default_Extension : Extension := mkExtension EmptyString 0.
Definition default_VkLayerProperties : VkLayerProperties :=
  mkVkLayerProperties EmptyString 0 0 EmptyString.
Definition default_VkExtensionProperties : VkExtensionProperties :=
  mkVkExtensionProperties EmptyString 0.

(** [Application] (vkpp/application.hh), as read at instance.cc:21-25. *)
Record Application : Type := mkApplication {
  app_name : string;
  app_version : Z;
  engine_name : string;
  engine_version : Z;
  api_version : Z
}.

Definition default_Application : Application :=
  mkApplication EmptyString 0 EmptyString 0 0.

(** [std::uint32_t] conversion of a size (instance.cc:53-54). *)
Definition to_uint32 (n : nat) : Z := (Z.of_nat n mod 2 ^ 32)%Z.

(** [VkInstanceCreateInfo], with the application information it points
    to and the packed name arrays (instance.cc:13-25 and 45-60). *)
Record VkInstanceCreateInfo : Type := mkVkInstanceCreateInfo {
  pApplicationInfo : Application;
  enabledLayerCount : Z;
  ppEnabledLayerNames : list string;
  enabledExtensionCount : Z;
  ppEnabledExtensionNames : list string
}.

(** The installed Vulkan implementation: what its enumeration calls
    report and how it answers [vkCreateInstance]. *)
Record Driver : Type := mkDriver {
  driver_layers : list VkLayerProperties;
  driver_extensions : list VkExtensionProperties;
  driver_create_instance : VkInstanceCreateInfo -> VkResult
}.

(** The calls that reach the driver. *)
Inductive DriverCall : Type :=
| EnumerateInstanceLayerProperties
| EnumerateInstanceExtensionProperties
| CreateInstance (result : VkResult) (created : VkInstance)
| DestroyInstance (destroyed : VkInstance)
| CreateDebugUtilsMessenger (parent : VkInstance)
                            (created : VkDebugUtilsMessengerEXT)
| DestroyDebugUtilsMessenger (parent : VkInstance)
                             (destroyed : VkDebugUtilsMessengerEXT).

(** The state of the process: the driver, the two static members
    declared at instance.cc:215-217, and the driver calls made so far,
    oldest first. *)
Record Process : Type := mkProcess {
  driver : Driver;
  available_layers : list Layer;
  available_extensions : list Extension;
  calls : list DriverCall
}.

(** [vkpp::Exception] (vkpp/exception.hh), by the two constructors
    instance.cc uses: from two messages (lines 31, 39) and from a
    [VkResult] and a message (line 63). *)
Inductive Exception : Type :=
| Exception_messages (what why : string)
| Exception_result (error : VkResult) (what : string).

(** ** A state and exception monad *)

Inductive Outcome (E A : Type) : Type :=
| Returned (value : A)
| Thrown (exception : E).

Arguments Returned {E A} value.
Arguments Thrown {E A} exception.

Definition M (A : Type) : Type := Process -> Outcome Exception A * Process.

Definition ret {A} (a : A) : M A := fun p => (Returned a, p).

Definition bind {A B} (c : M A) (k : A -> M B) : M B :=
  fun p =>
    match c p with
    | (Returned a, p') => k a p'
    | (Thrown e, p') => (Thrown e, p')
    end.

Definition throw {A} (e : Exception) : M A := fun p => (Thrown e, p).

Definition get_process : M Process := fun p => (Returned p, p).

Definition put_process (p : Process) : M unit := fun _ => (Returned tt, p).

(** The process after one more driver call. *)
Definition record_call (p : Process) (c : DriverCall) : Process :=
  mkProcess (driver p) (available_layers p) (available_extensions p)
            (calls p ++ [c]).

Definition driver_call (c : DriverCall) : M unit :=
  fun p => (Returned tt, record_call p c).

Declare Scope monad_scope.
Delimit Scope monad_scope with monad.
Notation "x <- c ;; k" := (bind c (fun x => k))
  (at level 61, c at next level, right associativity) : monad_scope.
Notation "c ;; k" := (bind c (fun _ => k))
  (at level 61, right associativity) : monad_scope.
Local Open Scope monad_scope.

(** A handle the driver has not handed out before: never null. *)
Definition fresh_handle (p : Process) : Z :=
  Z.of_nat (S (List.length (calls p))).

(** ** Vectors written by index *)

(** [v[i] = x] for [i < v.size()]. *)
Fixpoint assign {A} (v : list A) (i : nat) (x : A) : list A :=
  match v, i with
  | [], _ => []
  | _ :: rest, O => x :: rest
  | y :: rest, S j => y :: assign rest j x
  end.

(** The copy loops at instance.cc:176-178 and 194-196:
    [target.resize(source.size())] on the empty static vector, then
    [target[i] = source[i]] for every index. *)
Definition copy_converted {A B} (convert : A -> B) (default_source : A)
           (default_target : B) (source : list A) : list B :=
  fold_left
    (fun target i => assign target i (convert (nth i source default_source)))
    (seq 0 (List.length source))
    (repeat default_target (List.length source)).

(** ** The cached enumerations *)

(** [Instance::get_available_layers] (instance.cc:166-181).  The count
    query and the data query are one driver call each. *)
Definition get_available_layers : M (list Layer) :=
  p <- get_process ;;
  if negb (match available_layers p with [] => true | _ => false end)
  then ret (available_layers p)
  else
    driver_call EnumerateInstanceLayerProperties ;;
    let layer_count := List.length (driver_layers (driver p)) in
    driver_call EnumerateInstanceLayerProperties ;;
    let layer_properties := firstn layer_count (driver_layers (driver p)) in
    q <- get_process ;;
    let filled :=
      copy_converted Layer_of_properties default_VkLayerProperties
                     default_Layer layer_properties in
    put_process (mkProcess (driver q) filled (available_extensions q)
                           (calls q)) ;;
    ret filled.

(** [Instance::get_available_extensions] (instance.cc:183-199). *)
Definition get_available_extensions : M (list Extension) :=
  p <- get_process ;;
  if negb (match available_extensions p with [] => true | _ => false end)
  then ret (available_extensions p)
  else
    driver_call EnumerateInstanceExtensionProperties ;;
    let extension_count := List.length (driver_extensions (driver p)) in
    driver_call EnumerateInstanceExtensionProperties ;;
    let extension_properties :=
      firstn extension_count (driver_extensions (driver p)) in
    q <- get_process ;;
    let filled :=
      copy_converted Extension_of_properties default_VkExtensionProperties
                     default_Extension extension_properties in
    put_process (mkProcess (driver q) (available_layers q) filled
                           (calls q)) ;;
    ret filled.

(** [Instance::find(layers)] (instance.cc:100-102) and
    [Instance::find(extensions)] (instance.cc:104-106). *)
Definition find_layers (layers : list Layer) : M (list Layer) :=
  available <- get_available_layers ;;
  ret (find layers available).

Definition find_extensions (extensions : list Extension)
  : M (list Extension) :=
  available <- get_available_extensions ;;
  ret (find extensions available).

(* ================================================================== *)
(** * The instance *)

Definition Callback : Type := Z.

(** Modelled from the spec: [vkpp::DebugMessenger] is defined in
    [vkpp/debug_messenger.cc], which is not part of the sources at
    hand.  The specification calls it the Diagnostics Channel: "owned
    by at most one Context; receives a callback invoked by the driver;
    destroyed before its owning Context's handle is destroyed".  A
    default-constructed messenger holds the null handle. *)
Record DebugMessenger : Type := mkDebugMessenger {
  messenger_instance : VkInstance;
  messenger_handle : VkDebugUtilsMessengerEXT;
  messenger_callback : Callback
}.

Definition default_DebugMessenger : DebugMessenger :=
  mkDebugMessenger VK_NULL_HANDLE VK_NULL_HANDLE 0%Z.

(** Modelled from the spec: the constructor
    [DebugMessenger { handle, debug_callback }] registers the callback
    with the driver and owns the messenger it gets back. *)
Definition DebugMessenger_create (instance : VkInstance)
           (callback : Callback) : M DebugMessenger :=
  p <- get_process ;;
  let created := fresh_handle p in
  driver_call (CreateDebugUtilsMessenger instance created) ;;
  ret (mkDebugMessenger instance created callback).

(** Modelled from the spec: [DebugMessenger::destroy] releases the
    messenger when there is one. *)
Definition DebugMessenger_destroy (m : DebugMessenger) : M DebugMessenger :=
  if negb (Z.eqb (messenger_handle m) VK_NULL_HANDLE)
  then
    driver_call (DestroyDebugUtilsMessenger (messenger_instance m)
                                            (messenger_handle m)) ;;
    ret default_DebugMessenger
  else ret m.

(** The data members of [vkpp::Instance] that instance.cc reads and
    writes. *)
Record Instance : Type := mkInstance {
  application_info : Application;
  enabled_layers : list Layer;
  enabled_extensions : list Extension;
  handle : VkInstance;
  debug_utils_messenger : DebugMessenger
}.

(** Modelled from the spec: the default member initialisers of
    [vkpp::Instance] (vkpp/instance.hh, not part of the sources at
    hand).  The destructor's test at instance.cc:72 and the
    specification ("destroy the context handle if non-null (supports
    safe destruction of a moved-from/default instance)") say that an
    instance starts with the null handle. *)
Definition default_Instance : Instance :=
  mkInstance default_Application [] [] VK_NULL_HANDLE default_DebugMessenger.

(** [vkCreateInstance] (instance.cc:62). *)
Definition vkCreateInstance (create_info : VkInstanceCreateInfo)
  : M (VkResult * VkInstance) :=
  p <- get_process ;;
  let error := driver_create_instance (driver p) create_info in
  let created :=
    if Z.eqb error VK_SUCCESS then fresh_handle p else VK_NULL_HANDLE in
  driver_call (CreateInstance error created) ;;
  ret (error, created).

(** The packing loops at instance.cc:45-51. *)
Definition packed_names {T} `{Capability T} (required : list T)
  : list string :=
  fold_left
    (fun names i =>
       assign names i (name (nth i required (of_literal EmptyString))))
    (seq 0 (List.length required))
    (repeat EmptyString (List.length required)).

(** The constructor
    [Instance::Instance(application, layers, extensions, callback)]
    (instance.cc:6-68). *)
Definition Instance_construct (application_information : Application)
           (required_layers : list Layer)
           (required_extensions : list Extension)
           (debug_callback : Callback) : M Instance :=
  missing_layers <- find_layers required_layers ;;
  if negb (Nat.eqb (List.length missing_layers) 0)
  then
    let missing := collapse missing_layers in
    throw (Exception_messages
             "couldn't create instance!"
             ("the layers(s): " ++ missing ++ "are missing!"))
  else
    missing_extensions <- find_extensions required_extensions ;;
    if negb (Nat.eqb (List.length missing_extensions) 0)
    then
      let missing := collapse missing_extensions in
      throw (Exception_messages
               "couldn't create instance!"
               ("extension(s): " ++ missing ++ "are missing!"))
    else
      let layer_names := packed_names required_layers in
      let extension_names := packed_names required_extensions in
      let extension_count := to_uint32 (List.length extension_names) in
      let layer_count := to_uint32 (List.length layer_names) in
      let create_info :=
        mkVkInstanceCreateInfo application_information
                               layer_count layer_names
                               extension_count extension_names in
      created <- vkCreateInstance create_info ;;
      let '(error, new_handle) := created in
      if negb (Z.eqb error VK_SUCCESS)
      then throw (Exception_result error "couldn't create instance!")
      else
        if Nat.eqb (List.length (find [of_literal "VK_EXT_debug_utils"]
                                     required_extensions)) 0
        then
          if Nat.eqb
               (List.length
                  (find [of_literal "VK_LAYER_LUNARG_standard_validation"]
                        required_layers)) 0
          then
            messenger <- DebugMessenger_create new_handle debug_callback ;;
            ret (mkInstance application_information required_layers
                            required_extensions new_handle messenger)
          else
            ret (mkInstance application_information required_layers
                            required_extensions new_handle
                            default_DebugMessenger)
        else
          ret (mkInstance application_information required_layers
                          required_extensions new_handle
                          default_DebugMessenger).

(** The destructor [Instance::~Instance] (instance.cc:70-75). *)
Definition Instance_destruct (instance : Instance) : M unit :=
  _ <- DebugMessenger_destroy (debug_utils_messenger instance) ;;
  if negb (Z.eqb (handle instance) VK_NULL_HANDLE)
  then driver_call (DestroyInstance (handle instance))
  else ret tt.

(** [swap(Instance&, Instance&)] (instance.cc:86-94): the two objects
    after the call. *)
Definition swap (lhs rhs : Instance) : Instance * Instance :=
  let '(lhs_application, rhs_application) :=
    (application_info rhs, application_info lhs) in
  let '(lhs_layers, rhs_layers) := (enabled_layers rhs, enabled_layers lhs) in
  let '(lhs_extensions, rhs_extensions) :=
    (enabled_extensions rhs, enabled_extensions lhs) in
  let '(lhs_handle, rhs_handle) := (handle rhs, handle lhs) in
  let '(lhs_messenger, rhs_messenger) :=
    (debug_utils_messenger rhs, debug_utils_messenger lhs) in
  (mkInstance lhs_application lhs_layers lhs_extensions lhs_handle
              lhs_messenger,
   mkInstance rhs_application rhs_layers rhs_extensions rhs_handle
              rhs_messenger).

(** The move constructor [Instance::Instance(Instance&&)]
    (instance.cc:77-79): the new object and the moved-from one.  The
    new object's members hold their default initialisers when [swap]
    runs. *)
Definition Instance_move_construct (instance : Instance)
  : Instance * Instance :=
  swap default_Instance instance.

(** The move assignment [Instance::operator=(Instance&&)]
    (instance.cc:81-84): the assigned object and the moved-from one. *)
Definition Instance_move_assign (this instance : Instance)
  : Instance * Instance :=
  swap this instance.

(** ** What a process and an instance let one observe *)

(** The layers and the extensions a call of [get_available_layers] or
    [get_available_extensions] answers with in a given process state:
    the cache when it holds something, the driver's list otherwise. *)
Definition known_layers (p : Process) : list Layer :=
  match available_layers p with
  | [] => map Layer_of_properties (driver_layers (driver p))
  | cached => cached
  end.

Definition known_extensions (p : Process) : list Extension :=
  match available_extensions p with
  | [] => map Extension_of_properties (driver_extensions (driver p))
  | cached => cached
  end.

(** The instance owns a live debug messenger. *)
Definition has_messenger (instance : Instance) : bool :=
  negb (Z.eqb (messenger_handle (debug_utils_messenger instance))
              VK_NULL_HANDLE).

(** A capability of the given name is among the requested ones. *)
Definition requests {T} `{Capability T} (wanted : string)
           (required : list T) : bool :=
  existsb (fun c => String.eqb (name c) wanted) required.

Definition is_enumeration (c : DriverCall) : bool :=
  match c with
  | EnumerateInstanceLayerProperties => true
  | EnumerateInstanceExtensionProperties => true
  | _ => false
  end.

Definition is_layer_enumeration (c : DriverCall) : bool :=
  match c with
  | EnumerateInstanceLayerProperties => true
  | _ => false
  end.

Definition is_extension_enumeration (c : DriverCall) : bool :=
  match c with
  | EnumerateInstanceExtensionProperties => true
  | _ => false
  end.

Definition is_messenger_creation (c : DriverCall) : bool :=
  match c with
  | CreateDebugUtilsMessenger _ _ => true
  | _ => false
  end.

Definition is_destruction_of (h : VkInstance) (c : DriverCall) : bool :=
  match c with
  | DestroyInstance destroyed => Z.eqb destroyed h
  | _ => false
  end.

Definition count_calls (which : DriverCall -> bool) (cs : list DriverCall)
  : nat :=
  List.length (filter which cs).

(** A name occurs in a message, followed by a blank. *)
Definition enumerated_in (message entry : string) : Prop :=
  exists before after, message = (before ++ entry ++ " " ++ after)%string.

(** The process once the layers, and then the extensions, have been
    asked for. *)
Definition after_layers (p : Process) : Process :=
  snd (get_available_layers p).

Definition after_extensions (p : Process) : Process :=
  snd (get_available_extensions (after_layers p)).

(** The [VkInstanceCreateInfo] the constructor hands to the driver. *)
Definition create_info_of (application : Application)
           (required_layers : list Layer)
           (required_extensions : list Extension) : VkInstanceCreateInfo :=
  mkVkInstanceCreateInfo
    application
    (to_uint32 (List.length required_layers)) (map name required_layers)
    (to_uint32 (List.length required_extensions))
    (map name required_extensions).

(** ** Sample drivers and processes *)

(** A driver with the standard validation layer and two extensions,
    which accepts every instance. *)
Definition sample_driver : Driver :=
  mkDriver
    [mkVkLayerProperties "VK_LAYER_LUNARG_standard_validation" 1 1 "validation"]
    [mkVkExtensionProperties "VK_KHR_surface" 25;
     mkVkExtensionProperties "VK_EXT_debug_utils" 1]
    (fun _ => VK_SUCCESS).

(** A driver that reports no layer at all. *)
Definition bare_driver : Driver :=
  mkDriver [] [mkVkExtensionProperties "VK_KHR_surface" 25]
           (fun _ => VK_SUCCESS).

(** A process that has not called the driver yet. *)
Definition fresh_process (d : Driver) : Process := mkProcess d [] [] [].

Definition sample_application : Application :=
  mkApplication "VKHR" 1 "None" 0 4198400.

(** Two live instances without a messenger. *)
Definition first_instance : Instance :=
  mkInstance sample_application [] [] 5%Z default_DebugMessenger.

Definition second_instance : Instance :=
  mkInstance sample_application [] [] 9%Z default_DebugMessenger.

(** Capabilities to ask for. *)
Definition layer_a : Layer := mkLayer "VK_LAYER_A" EmptyString 1 1.
Definition layer_b : Layer := mkLayer "VK_LAYER_B" EmptyString 1 1.
Definition missing_layer : Layer := mkLayer "VK_LAYER_missing" EmptyString 0 0.
Definition validation_layer : Layer :=
  mkLayer "VK_LAYER_LUNARG_standard_validation" EmptyString 0 0.
Definition debug_utils : Extension := mkExtension "VK_EXT_debug_utils" 0.

(* ================================================================== *)
(** * Single-precision arithmetic and the glm vectors *)

(** [float]: IEEE-754 binary32. *)
Definition float : Type := spec_float.

Definition prec32 : Z := 24%Z.
Definition emax32 : Z := 128%Z.

Definition fadd : float -> float -> float := SFadd prec32 emax32.
Definition fsub : float -> float -> float := SFsub prec32 emax32.
Definition fmul : float -> float -> float := SFmul prec32 emax32.
Definition fsqrt : float -> float := SFsqrt prec32 emax32.
Definition flt : float -> float -> bool := SFltb.
Definition fle : float -> float -> bool := SFleb.
Definition feq : float -> float -> bool := SFeqb.

(** The literals [0.0f] and [1.0f]. *)
Definition f0 : float := S754_zero false.
Definition f1 : float := S754_finite false 8388608 (-23).

Definition is_nan (x : float) : bool :=
  match x with S754_nan => true | _ => false end.

Definition is_finite (x : float) : bool :=
  match x with
  | S754_zero _ => true
  | S754_finite _ m e => bounded prec32 emax32 m e
  | _ => false
  end.

Definition is_infinity (x : float) : bool :=
  match x with S754_infinity _ => true | _ => false end.

(** [0 <= x]: [x] is neither negative nor NaN. *)
Definition not_negative (x : float) : bool := fle f0 x.

(** A colour component one can shade with: a finite number that is not
    negative. *)
Definition intensity (x : float) : bool := is_finite x && not_negative x.

(** [glm::vec3] and [glm::vec4]. *)
Record vec3 : Type := mkvec3 { v3x : float; v3y : float; v3z : float }.
Record vec4 : Type := mkvec4 {
  v4x : float; v4y : float; v4z : float; v4w : float
}.

(** [glm::dot] on [vec3] (glm/detail/func_geometric.inl): the
    component-wise product, summed left to right. *)
Definition dot (a b : vec3) : float :=
  fadd (fadd (fmul (v3x a) (v3x b)) (fmul (v3y a) (v3y b)))
       (fmul (v3z a) (v3z b)).

(** [glm::length] on [vec3]: [sqrt(dot(v, v))]. *)
Definition length3 (v : vec3) : float := fsqrt (dot v v).

(** [vec3 * float] and [vec3 + vec3], component-wise. *)
Definition scale (v : vec3) (s : float) : vec3 :=
  mkvec3 (fmul (v3x v) s) (fmul (v3y v) s) (fmul (v3z v) s).

Definition all3 (holds : float -> bool) (v : vec3) : bool :=
  holds (v3x v) && holds (v3y v) && holds (v3z v).

(** [a == b] on [vec3]: every component compares equal. *)
Definition feq3 (a b : vec3) : bool :=
  feq (v3x a) (v3x b) && feq (v3y a) (v3y b) && feq (v3z a) (v3z b).

Definition is_zero (x : float) : bool :=
  match x with S754_zero _ => true | _ => false end.

Definition add3 (a b : vec3) : vec3 :=
  mkvec3 (fadd (v3x a) (v3x b)) (fadd (v3y a) (v3y b))
         (fadd (v3z a) (v3z b)).

(** [glm::max], [glm::min] and [glm::clamp] on scalars
    (glm/detail/func_common.inl): [max(x, y) = (x < y) ? y : x],
    [min(x, y) = (y < x) ? y : x],
    [clamp(x, lo, hi) = min(max(x, lo), hi)]. *)
Definition fmax (x y : float) : float := if flt x y then y else x.
Definition fmin (x y : float) : float := if flt y x then y else x.
Definition clamp (x lo hi : float) : float := fmin (fmax x lo) hi.

(* ================================================================== *)
(** * The Embree hair style *)

(** Modelled from the spec: [vkhr::HairStyle] (vkhr/hair_style.hh, not
    part of the sources at hand), the strand geometry of section 3:
    control points, a thickness per control point, a tangent per
    control point and the index sequence ([unsigned], four bytes an
    entry). *)
Record HairStyle : Type := mkHairStyle {
  vertices : list vec3;
  thickness : list float;
  tangents : list vec3;
  indices : list Z
}.

Definition get_indices (hair_style : HairStyle) : list Z :=
  indices hair_style.

(** Modelled from the spec: [HairStyle::create_position_thickness_data]
    is defined outside the sources at hand; it packs "one 4-component
    entry per control point". *)
Definition create_position_thickness_data (hair_style : HairStyle)
  : list vec4 :=
  map (fun pt => mkvec4 (v3x (fst pt)) (v3y (fst pt)) (v3z (fst pt)) (snd pt))
      (combine (vertices hair_style) (thickness hair_style)).

Definition sizeof_unsigned : nat := 4.
Definition sizeof_vec3 : nat := 12.
Definition sizeof_vec4 : nat := 16.

(** ** Embree *)

Inductive RTCGeometryType : Type := RTC_GEOMETRY_TYPE_FLAT_LINEAR_CURVE.

Inductive RTCBufferType : Type :=
| RTC_BUFFER_TYPE_INDEX
| RTC_BUFFER_TYPE_VERTEX
| RTC_BUFFER_TYPE_VERTEX_ATTRIBUTE.

Inductive RTCFormat : Type :=
| RTC_FORMAT_UINT
| RTC_FORMAT_FLOAT3
| RTC_FORMAT_FLOAT4.

(** The memory a shared buffer points into. *)
Inductive SharedData : Type :=
| UnsignedData (entries : list Z)
| Vec3Data (entries : list vec3)
| Vec4Data (entries : list vec4).

(** One [rtcSetSharedGeometryBuffer] binding. *)
Record RTCBuffer : Type := mkRTCBuffer {
  buffer_type : RTCBufferType;
  buffer_slot : nat;
  buffer_format : RTCFormat;
  buffer_data : SharedData;
  byteOffset : nat;
  byteStride : nat;
  itemCount : nat
}.

Record RTCGeometry : Type := mkRTCGeometry {
  geometry_type : RTCGeometryType;
  vertex_attribute_count : nat;
  buffers : list RTCBuffer;
  committed : bool
}.

(** A scene: the geometries attached to it; a geometry's identifier is
    its position. *)
Definition RTCScene : Type := list RTCGeometry.

Record Raytracer : Type := mkRaytracer {
  scene : RTCScene
}.

Definition rtcNewGeometry (type : RTCGeometryType) : RTCGeometry :=
  mkRTCGeometry type 0 [] false.

Definition rtcSetSharedGeometryBuffer (geometry : RTCGeometry)
           (type : RTCBufferType) (slot : nat) (format : RTCFormat)
           (data : SharedData) (offset stride count : nat) : RTCGeometry :=
  mkRTCGeometry (geometry_type geometry) (vertex_attribute_count geometry)
                (buffers geometry
                 ++ [mkRTCBuffer type slot format data offset stride count])
                (committed geometry).

Definition rtcSetGeometryVertexAttributeCount (geometry : RTCGeometry)
           (count : nat) : RTCGeometry :=
  mkRTCGeometry (geometry_type geometry) count (buffers geometry)
                (committed geometry).

Definition rtcCommitGeometry (geometry : RTCGeometry) : RTCGeometry :=
  mkRTCGeometry (geometry_type geometry) (vertex_attribute_count geometry)
                (buffers geometry) true.

Definition rtcAttachGeometry (target : RTCScene) (geometry : RTCGeometry)
  : RTCScene * nat :=
  (target ++ [geometry], List.length target).

(** The index binding of a geometry, and what Embree reads through the
    binding: item [i] is the entry at byte [byteOffset + i * byteStride],
    one primitive an item. *)
Definition index_buffer (geometry : RTCGeometry) : option RTCBuffer :=
  List.find
    (fun b =>
       match buffer_type b with RTC_BUFFER_TYPE_INDEX => true | _ => false end)
    (buffers geometry).

Definition segment_count (geometry : RTCGeometry) : nat :=
  match index_buffer geometry with
  | Some b => itemCount b
  | None => 0
  end.

Definition segment_first_vertices (geometry : RTCGeometry) : list Z :=
  match index_buffer geometry with
  | Some b =>
      match buffer_data b with
      | UnsignedData entries =>
          map (fun i =>
                 nth ((byteOffset b + i * byteStride b) / sizeof_unsigned)
                     entries 0%Z)
              (seq 0 (itemCount b))
      | _ => []
      end
  | None => []
  end.

(** Modelled from the spec: the failure of section 7 that the
    specification asks of the builder.  hair_style.cc has no statement
    that raises it. *)
Inductive BuildError : Type := InvalidGeometry.

(** The object [vkhr::embree::HairStyle] after [load]. *)
Record EmbreeHairStyle : Type := mkEmbreeHairStyle {
  position_thickness : list vec4;
  hair_scene : RTCScene;
  geometry : nat
}.

(** [HairStyle::load] (hair_style.cc:12-42): the loaded object, with
    the scene after the attachment.  The function has no failing
    path. *)
Definition load (hair_style : HairStyle) (raytracer : Raytracer)
  : Outcome BuildError EmbreeHairStyle :=
  let indices := get_indices hair_style in
  let position_thickness := create_position_thickness_data hair_style in
  let hair_geometry := rtcNewGeometry RTC_GEOMETRY_TYPE_FLAT_LINEAR_CURVE in
  let hair_geometry :=
    rtcSetSharedGeometryBuffer hair_geometry RTC_BUFFER_TYPE_VERTEX 0
      RTC_FORMAT_FLOAT4 (Vec4Data position_thickness)
      0 sizeof_vec4 (List.length position_thickness) in
  let hair_geometry := rtcSetGeometryVertexAttributeCount hair_geometry 1 in
  let hair_geometry :=
    rtcSetSharedGeometryBuffer hair_geometry RTC_BUFFER_TYPE_VERTEX_ATTRIBUTE 0
      RTC_FORMAT_FLOAT3 (Vec3Data (tangents hair_style))
      0 sizeof_vec3 (List.length (tangents hair_style)) in
  let hair_geometry :=
    rtcSetSharedGeometryBuffer hair_geometry RTC_BUFFER_TYPE_INDEX 0
      RTC_FORMAT_UINT (UnsignedData indices)
      0 (sizeof_unsigned * 2) (List.length indices / 2) in
  let hair_geometry := rtcCommitGeometry hair_geometry in
  let '(attached, geometry_id) :=
    rtcAttachGeometry (scene raytracer) hair_geometry in
  Returned (mkEmbreeHairStyle position_thickness attached geometry_id).

(** The geometry [load] attached, looked up by the stored identifier. *)
Definition loaded_geometry (loaded : EmbreeHairStyle) : option RTCGeometry :=
  nth_error (hair_scene loaded) (geometry loaded).

(** ** The Kajiya-Kay model *)

Section KajiyaKay.
(** [std::pow] on [float] comes from the C library. *)
Variable powf : float -> float -> float.

(** The scalars [HairStyle::kajiya_kay] computes
    (hair_style.cc:84-94). *)
Definition cosTL (tangent light : vec3) : float := dot light tangent.
Definition cosTE (tangent eye : vec3) : float := dot eye tangent.

Definition one_minus_squared (c : float) : float := fsub f1 (fmul c c).

Definition sinTL (tangent light : vec3) : float :=
  fsqrt (one_minus_squared (cosTL tangent light)).
Definition sinTE (tangent eye : vec3) : float :=
  fsqrt (one_minus_squared (cosTE tangent eye)).

(** The power and the factor of the specular colour at
    hair_style.cc:97. *)
Definition specular_power (p : float) (tangent light eye : vec3) : float :=
  powf (fadd (fmul (cosTL tangent light) (cosTE tangent eye))
             (fmul (sinTL tangent light) (sinTE tangent eye)))
       p.

Definition specular_factor (p : float) (tangent light eye : vec3) : float :=
  clamp (specular_power p tangent light eye) f0 f1.

Definition diffuse_colors (diffuse tangent light : vec3) : vec3 :=
  scale diffuse (sinTL tangent light).

Definition specular_colors (specular : vec3) (p : float)
           (tangent light eye : vec3) : vec3 :=
  scale specular (specular_factor p tangent light eye).

(** [HairStyle::kajiya_kay] (hair_style.cc:78-100). *)
Definition kajiya_kay (diffuse specular : vec3) (p : float)
           (tangent light eye : vec3) : vec3 :=
  add3 (diffuse_colors diffuse tangent light)
       (specular_colors specular p tangent light eye).
End KajiyaKay.

(** A power function for exponents that are whole numbers, by repeated
    multiplication; it stands in for the C library's where a concrete
    one is needed. *)
Definition whole_exponent (p : float) : option nat :=
  match p with
  | S754_zero _ => Some 0
  | S754_finite false m e =>
      match e with
      | Z0 => Some (Pos.to_nat m)
      | Zpos k => Some (Pos.to_nat m * 2 ^ Pos.to_nat k)
      | Zneg k =>
          if (Z.pos m mod 2 ^ Z.pos k =? 0)%Z
          then Some (Z.to_nat (Z.pos m / 2 ^ Z.pos k))
          else None
      end
  | _ => None
  end.

Fixpoint repeated_product (x : float) (n : nat) : float :=
  match n with
  | O => f1
  | S k => fmul x (repeated_product x k)
  end.

Definition powf_whole (x p : float) : float :=
  if feq x f1 then f1
  else match whole_exponent p with
       | Some n => repeated_product x n
       | None => S754_nan
       end.

(** A strand of three control points whose index sequence has three
    entries. *)
Definition odd_strand : HairStyle :=
  mkHairStyle
    [mkvec3 f0 f0 f0; mkvec3 f0 f1 f0; mkvec3 f1 f1 f0]
    [f1; f1; f1]
    [mkvec3 f0 f1 f0; mkvec3 f0 f1 f0; mkvec3 f1 f0 f0]
    [0%Z; 1%Z; 1%Z].

Definition empty_raytracer : Raytracer := mkRaytracer [].

(** The constants of [HairStyle::shade] (hair_style.cc:47-56): the
    diffuse colour [(.32, .228, .128)], the exponent [50.0f] and the
    eye direction [(0, 0, -1)], as binary32 numbers. *)
Definition hair_diffuse : vec3 :=
  mkvec3 (S754_finite false 10737418 (-25))
         (S754_finite false 15300821 (-26))
         (S754_finite false 8589935 (-26)).

Definition f50 : float := S754_finite false 13107200 (-18).

Definition shade_eye : vec3 :=
  mkvec3 f0 f0 (S754_finite true 8388608 (-23)).

(** A white light. *)
Definition white : vec3 := mkvec3 f1 f1 f1.

(** The direction [(2, 2, 1)] normalised in single precision:
    [(2/3, 2/3, 1/3)] rounded to binary32. *)
Definition slanted : vec3 :=
  mkvec3 (S754_finite false 11184811 (-24))
         (S754_finite false 11184811 (-24))
         (S754_finite false 11184811 (-25)).

Definition axis_y : vec3 := mkvec3 f0 f1 f0.
Definition axis_z : vec3 := mkvec3 f0 f0 f1.

Definition nan3 : vec3 := mkvec3 S754_nan S754_nan S754_nan.

(* ================================================================== *)
(** * Further members and observers *)

(** The accessors of [vkpp::Instance] (instance.cc:96-98 and
    144-158). *)
Definition get_handle (instance : Instance) : VkInstance :=
  handle instance.

Definition get_application (instance : Instance) : Application :=
  application_info instance.

Definition get_enabled_layers (instance : Instance) : list Layer :=
  enabled_layers instance.

Definition get_enabled_extensions (instance : Instance) : list Extension :=
  enabled_extensions instance.

Definition get_debug_messenger (instance : Instance) : DebugMessenger :=
  debug_utils_messenger instance.

(** The constructor [embree::HairStyle::HairStyle] (hair_style.cc:7-10)
    and [HairStyle::get_geometry] (hair_style.cc:74-76). *)
Definition HairStyle_construct (hair_style : HairStyle)
           (raytracer : Raytracer) : Outcome BuildError EmbreeHairStyle :=
  load hair_style raytracer.

Definition get_geometry (loaded : EmbreeHairStyle) : nat :=
  geometry loaded.

(** [n] calls of a computation, one after the other, from a process
    state. *)
Fixpoint process_after {A} (n : nat) (c : M A) (p : Process) : Process :=
  match n with
  | O => p
  | S k => process_after k c (snd (c p))
  end.

Definition is_destruction (c : DriverCall) : bool :=
  match c with
  | DestroyInstance _ => true
  | DestroyDebugUtilsMessenger _ _ => true
  | _ => false
  end.

Definition is_instance_creation (c : DriverCall) : bool :=
  match c with
  | CreateInstance _ _ => true
  | _ => false
  end.

(** The driver calls that bring an instance, with or without its
    messenger, to life and take it down again. *)
Definition lifetime_calls (instance : Instance) : list DriverCall :=
  if has_messenger instance
  then [CreateInstance VK_SUCCESS (handle instance);
        CreateDebugUtilsMessenger
          (handle instance)
          (messenger_handle (debug_utils_messenger instance));
        DestroyDebugUtilsMessenger
          (handle instance)
          (messenger_handle (debug_utils_messenger instance));
        DestroyInstance (handle instance)]
  else [CreateInstance VK_SUCCESS (handle instance);
        DestroyInstance (handle instance)].

(** The bytes behind a shared buffer. *)
Definition data_bytes (data : SharedData) : nat :=
  match data with
  | UnsignedData entries => List.length entries * sizeof_unsigned
  | Vec3Data entries => List.length entries * sizeof_vec3
  | Vec4Data entries => List.length entries * sizeof_vec4
  end.

(** The bytes a binding lets Embree read: [itemCount] items, one every
    [byteStride] bytes from [byteOffset], each as wide as its format. *)
Definition format_bytes (format : RTCFormat) : nat :=
  match format with
  | RTC_FORMAT_UINT => 4
  | RTC_FORMAT_FLOAT3 => 12
  | RTC_FORMAT_FLOAT4 => 16
  end.

Definition binding_end (b : RTCBuffer) : nat :=
  match itemCount b with
  | O => byteOffset b
  | S last =>
      byteOffset b + last * byteStride b + format_bytes (buffer_format b)
  end.

(** The entries of a list at the even positions. *)
Fixpoint even_positions {A} (l : list A) : list A :=
  match l with
  | a :: _ :: rest => a :: even_positions rest
  | [a] => [a]
  | [] => []
  end.



(** The enumeration calls the constructor makes from a process state:
    two for each cache that is empty. *)
Definition enumeration_calls (p : Process) : list DriverCall :=
  (match available_layers p with
   | [] => [EnumerateInstanceLayerProperties;
            EnumerateInstanceLayerProperties]
   | _ => []
   end)
  ++ (match available_extensions p with
      | [] => [EnumerateInstanceExtensionProperties;
               EnumerateInstanceExtensionProperties]
      | _ => []
      end).

(** Every required capability has an available namesake. *)
Definition all_available {T} `{Capability T} (required available : list T)
  : Prop :=
  forall r, In r required -> exists a, In a available /\ name a = name r.

(** The geometry [load] hands to the scene for a hair style: the three
    bindings in the order of the calls at hair_style.cc:20-35, one
    attribute slot, committed. *)
Definition hair_geometry_of (hair_style : HairStyle) : RTCGeometry :=
  mkRTCGeometry
    RTC_GEOMETRY_TYPE_FLAT_LINEAR_CURVE 1
    [mkRTCBuffer RTC_BUFFER_TYPE_VERTEX 0 RTC_FORMAT_FLOAT4
       (Vec4Data (create_position_thickness_data hair_style))
       0 sizeof_vec4
       (List.length (create_position_thickness_data hair_style));
     mkRTCBuffer RTC_BUFFER_TYPE_VERTEX_ATTRIBUTE 0 RTC_FORMAT_FLOAT3
       (Vec3Data (tangents hair_style))
       0 sizeof_vec3 (List.length (tangents hair_style));
     mkRTCBuffer RTC_BUFFER_TYPE_INDEX 0 RTC_FORMAT_UINT
       (UnsignedData (indices hair_style))
       0 (sizeof_unsigned * 2) (List.length (indices hair_style) / 2)]
    true.

(** A second strand, for loading after [odd_strand]. *)
Definition pair_strand : HairStyle :=
  mkHairStyle
    [mkvec3 f0 f0 f0; mkvec3 f0 f1 f0; mkvec3 f0 f1 f1]
    [f1; f1; f1]
    [mkvec3 f0 f1 f0; mkvec3 f0 f1 f0; mkvec3 f0 f0 f1]
    [0%Z; 1%Z; 1%Z; 2%Z].

(* ------------------------------------------------------------------ *)
(** ** The loops as list functions *)

Section FindFacts.
Context {T : Type} `{Capability T}.

Lemma equals_refl (a : T) : equals a a = true.
Proof. unfold equals. apply String.eqb_refl. Qed.

Lemma equals_sym (a b : T) : equals a b = equals b a.
Proof. unfold equals. apply String.eqb_sym. Qed.

Lemma equals_name (a b : T) : equals a b = true <-> name a = name b.
Proof. unfold equals. apply String.eqb_eq. Qed.

Lemma found_in_from (available : list T) (requested : T) (start : bool) :
  fold_left
    (fun found available_one =>
       if equals requested available_one then true else found)
    available start
  = start || existsb (equals requested) available.
Proof.
  revert start.
  induction available as [|a rest IH]; intro start; simpl.
  - now rewrite orb_false_r.
  - rewrite IH. destruct (equals requested a); simpl.
    + now rewrite orb_true_r.
    + reflexivity.
Qed.

Lemma found_in_existsb (available : list T) (requested : T) :
  found_in available requested = existsb (equals requested) available.
Proof. unfold found_in. now rewrite found_in_from. Qed.

Lemma find_from (requested available acc : list T) :
  fold_left
    (fun missing requested_one =>
       if negb (found_in available requested_one)
       then missing ++ [requested_one]
       else missing)
    requested acc
  = acc ++ filter (absent_from available) requested.
Proof.
  revert acc.
  induction requested as [|r rest IH]; intro acc; simpl.
  - now rewrite app_nil_r.
  - rewrite IH. unfold absent_from.
    rewrite found_in_existsb.
    destruct (existsb (equals r) available); simpl.
    + reflexivity.
    + now rewrite <- app_assoc.
Qed.

Lemma find_filter (requested available : list T) :
  find requested available = filter (absent_from available) requested.
Proof. unfold find. now rewrite find_from. Qed.

Lemma absent_from_spec (available : list T) (requested : T) :
  absent_from available requested = true
  <-> forall a, In a available -> name a <> name requested.
Proof.
  unfold absent_from. rewrite negb_true_iff.
  split.
  - intros Hex a Hin Heq.
    assert (existsb (equals requested) available = true) as Habs.
    { apply existsb_exists. exists a. split; [assumption|].
      apply equals_name. now symmetry. }
    congruence.
  - intros Hall.
    destruct (existsb (equals requested) available) eqn:E; [|reflexivity].
    apply existsb_exists in E. destruct E as [a [Hin Heq]].
    apply equals_name in Heq. exfalso. apply (Hall a Hin). now symmetry.
Qed.

Lemma absent_from_perm (available available' : list T) (requested : T) :
  Permutation available available' ->
  absent_from available requested = absent_from available' requested.
Proof.
  intro Hp.
  destruct (absent_from available requested) eqn:E1;
    destruct (absent_from available' requested) eqn:E2; try reflexivity.
  - rewrite absent_from_spec in E1.
    assert (absent_from available' requested = true) as E.
    { apply absent_from_spec. intros a Hin.
      apply E1. eapply Permutation_in; [symmetry; eassumption|assumption]. }
    congruence.
  - rewrite absent_from_spec in E2.
    assert (absent_from available requested = true) as E.
    { apply absent_from_spec. intros a Hin.
      apply E2. eapply Permutation_in; eassumption. }
    congruence.
Qed.
End FindFacts.

Section FindOrder.
Context {T : Type} `{Capability T}.

Lemma filter_Permutation (keep : T -> bool) (l l' : list T) :
  Permutation l l' -> Permutation (filter keep l) (filter keep l').
Proof.
  induction 1 as [|u l l' Hp IH|u v l|l l' l'' Hp1 IH1 Hp2 IH2]; simpl.
  - constructor.
  - destruct (keep u); [now constructor|assumption].
  - destruct (keep u), (keep v);
      try apply perm_swap; apply Permutation_refl.
  - now transitivity (filter keep l').
Qed.

Lemma find_Permutation (requested requested' available available' : list T) :
  Permutation requested requested' ->
  Permutation available available' ->
  Permutation (find requested available) (find requested' available').
Proof.
  intros Hr Ha. rewrite !find_filter.
  rewrite (filter_ext (absent_from available) (absent_from available')
                      (fun r => absent_from_perm r Ha)).
  now apply filter_Permutation.
Qed.

Lemma find_In (requested available : list T) (r : T) :
  In r (find requested available)
  <-> In r requested /\ forall a, In a available -> name a <> name r.
Proof.
  rewrite find_filter, filter_In, absent_from_spec. reflexivity.
Qed.

Lemma find_nil (requested available : list T) :
  find requested available = []
  <-> forall r, In r requested ->
                exists a, In a available /\ name a = name r.
Proof.
  rewrite find_filter. split.
  - intros Hnil r Hin.
    destruct (existsb (equals r) available) eqn:E.
    + apply existsb_exists in E. destruct E as [a [Ha Heq]].
      exists a. split; [assumption|].
      apply equals_name in Heq. now symmetry.
    + assert (In r (filter (absent_from available) requested)) as Hf.
      { apply filter_In. split; [assumption|].
        unfold absent_from. now rewrite E. }
      rewrite Hnil in Hf. destruct Hf.
  - intros Hall.
    destruct (filter (absent_from available) requested) as [|r rest] eqn:E;
      [reflexivity|].
    assert (In r (filter (absent_from available) requested)) as Hf
        by (rewrite E; now left).
    apply filter_In in Hf. destruct Hf as [Hin Habs].
    destruct (Hall r Hin) as [a [Ha Heq]].
    rewrite absent_from_spec in Habs. now destruct (Habs a Ha).
Qed.

Lemma filter_filter_length (keep other : T -> bool) (l : list T) :
  (forall u, keep u = true -> other u = true) ->
  List.length (filter keep (filter other l)) = List.length (filter keep l).
Proof.
  intro Himp. induction l as [|u l IH]; simpl; [reflexivity|].
  destruct (other u) eqn:Eo; simpl.
  - destruct (keep u); simpl; now rewrite IH.
  - destruct (keep u) eqn:Ek; [|assumption].
    apply Himp in Ek. congruence.
Qed.

Lemma absent_from_equals (available : list T) (r u : T) :
  equals r u = true ->
  absent_from available r = absent_from available u.
Proof.
  intro Heq. apply equals_name in Heq.
  unfold absent_from. f_equal.
  induction available as [|a rest IH]; simpl; [reflexivity|].
  rewrite IH. f_equal. unfold equals. now rewrite Heq.
Qed.
End FindOrder.

(* ------------------------------------------------------------------ *)
(** ** Strings *)

Lemma string_app_assoc (a b c : string) :
  ((a ++ b) ++ c = a ++ (b ++ c))%string.
Proof. induction a as [|ch a IH]; simpl; [reflexivity|now rewrite IH]. Qed.

Lemma string_app_empty_r (a : string) : (a ++ EmptyString = a)%string.
Proof. induction a as [|ch a IH]; simpl; [reflexivity|now rewrite IH]. Qed.

Section CollapseFacts.
Context {T : Type} `{Capability T}.

Lemma collapse_from (capabilities : list T) (start : string) :
  fold_left
    (fun joined capability => (joined ++ (name capability ++ " "))%string)
    capabilities start
  = (start ++ collapse capabilities)%string.
Proof.
  unfold collapse. revert start.
  induction capabilities as [|c rest IH]; intro start; simpl.
  - now rewrite string_app_empty_r.
  - rewrite IH. rewrite (IH (name c ++ " ")%string).
    now rewrite string_app_assoc.
Qed.

Lemma collapse_cons (c : T) (rest : list T) :
  collapse (c :: rest) = (name c ++ " " ++ collapse rest)%string.
Proof.
  unfold collapse at 1. simpl. rewrite collapse_from.
  now rewrite string_app_assoc.
Qed.

Lemma collapse_app (front back : list T) :
  collapse (front ++ back) = (collapse front ++ collapse back)%string.
Proof.
  induction front as [|c front IH]; simpl; [reflexivity|].
  rewrite !collapse_cons, IH. now rewrite !string_app_assoc.
Qed.

Lemma collapse_enumerates (capabilities : list T) (c : T) :
  In c capabilities -> enumerated_in (collapse capabilities) (name c).
Proof.
  intro Hin. apply in_split in Hin. destruct Hin as [front [back Heq]].
  subst capabilities. exists (collapse front), (collapse back).
  now rewrite collapse_app, collapse_cons.
Qed.
End CollapseFacts.

Lemma enumerated_in_framed (message entry head tail : string) :
  enumerated_in message entry ->
  enumerated_in (head ++ message ++ tail) entry.
Proof.
  intros [before [after Heq]]. subst message.
  exists (head ++ before)%string, (after ++ tail)%string.
  now rewrite !string_app_assoc.
Qed.

(* ------------------------------------------------------------------ *)
(** ** The copy loops *)

Lemma assign_middle {A} (front : list A) (old new : A) (back : list A) :
  assign (front ++ old :: back) (List.length front) new
  = front ++ new :: back.
Proof.
  induction front as [|y front IH]; simpl; [reflexivity|now rewrite IH].
Qed.

Lemma copy_loop_prefix {B} (step : nat -> B) (filler : B) (n k : nat) :
  k <= n ->
  fold_left (fun target i => assign target i (step i))
            (seq 0 k) (repeat filler n)
  = map step (seq 0 k) ++ repeat filler (n - k).
Proof.
  induction k as [|k IH]; intro Hle.
  - simpl. now rewrite Nat.sub_0_r.
  - rewrite seq_S, fold_left_app, IH by lia. simpl.
    replace (n - k) with (S (n - S k)) by lia. simpl.
    replace k with (List.length (map step (seq 0 k))) at 3
      by now rewrite length_map, length_seq.
    rewrite assign_middle, map_app. simpl.
    now rewrite <- app_assoc.
Qed.

Lemma map_nth_seq {A B} (convert : A -> B) (d : A) (source : list A) :
  map (fun i => convert (nth i source d)) (seq 0 (List.length source))
  = map convert source.
Proof.
  induction source as [|a source IH]; simpl; [reflexivity|].
  f_equal. rewrite <- seq_shift, map_map. exact IH.
Qed.

Lemma copy_converted_map {A B} (convert : A -> B) (da : A) (db : B)
      (source : list A) :
  copy_converted convert da db source = map convert source.
Proof.
  unfold copy_converted.
  rewrite (copy_loop_prefix (fun i => convert (nth i source da)) db
                            (Nat.le_refl _)).
  rewrite Nat.sub_diag. simpl. rewrite app_nil_r. apply map_nth_seq.
Qed.

Lemma packed_names_map {T} `{Capability T} (required : list T) :
  packed_names required = map name required.
Proof.
  unfold packed_names.
  rewrite (copy_loop_prefix
             (fun i => name (nth i required (of_literal EmptyString)))
             EmptyString (Nat.le_refl _)).
  rewrite Nat.sub_diag. simpl. rewrite app_nil_r. apply map_nth_seq.
Qed.

(* ------------------------------------------------------------------ *)
(** ** The cached enumerations, step by step *)

Lemma get_available_layers_cached (p : Process) :
  available_layers p <> [] ->
  get_available_layers p = (Returned (available_layers p), p).
Proof.
  intro Hne. unfold get_available_layers, bind, get_process.
  destruct (available_layers p) eqn:E; [congruence|]. simpl.
  reflexivity.
Qed.

Lemma get_available_layers_empty (p : Process) :
  available_layers p = [] ->
  get_available_layers p
  = (Returned (map Layer_of_properties (driver_layers (driver p))),
     mkProcess (driver p)
               (map Layer_of_properties (driver_layers (driver p)))
               (available_extensions p)
               (calls p ++ [EnumerateInstanceLayerProperties;
                            EnumerateInstanceLayerProperties])).
Proof.
  intro He. unfold get_available_layers, bind, get_process.
  rewrite He. simpl. rewrite firstn_all, copy_converted_map.
  now rewrite <- app_assoc.
Qed.

Lemma get_available_extensions_cached (p : Process) :
  available_extensions p <> [] ->
  get_available_extensions p = (Returned (available_extensions p), p).
Proof.
  intro Hne. unfold get_available_extensions, bind, get_process.
  destruct (available_extensions p) eqn:E; [congruence|]. simpl.
  reflexivity.
Qed.

Lemma get_available_extensions_empty (p : Process) :
  available_extensions p = [] ->
  get_available_extensions p
  = (Returned (map Extension_of_properties (driver_extensions (driver p))),
     mkProcess (driver p)
               (available_layers p)
               (map Extension_of_properties (driver_extensions (driver p)))
               (calls p ++ [EnumerateInstanceExtensionProperties;
                            EnumerateInstanceExtensionProperties])).
Proof.
  intro He. unfold get_available_extensions, bind, get_process.
  rewrite He. simpl. rewrite firstn_all, copy_converted_map.
  now rewrite <- app_assoc.
Qed.

Lemma get_available_layers_run (p : Process) :
  get_available_layers p = (Returned (known_layers p), after_layers p).
Proof.
  unfold after_layers, known_layers.
  destruct (available_layers p) as [|l rest] eqn:E.
  - now rewrite (get_available_layers_empty p E).
  - rewrite get_available_layers_cached by (rewrite E; discriminate).
    now rewrite E.
Qed.

Lemma get_available_extensions_run (p : Process) :
  get_available_extensions p
  = (Returned (known_extensions p), snd (get_available_extensions p)).
Proof.
  unfold known_extensions.
  destruct (available_extensions p) as [|l rest] eqn:E.
  - now rewrite (get_available_extensions_empty p E).
  - rewrite get_available_extensions_cached by (rewrite E; discriminate).
    now rewrite E.
Qed.

Lemma after_layers_frame (p : Process) :
  driver (after_layers p) = driver p
  /\ available_extensions (after_layers p) = available_extensions p
  /\ available_layers (after_layers p) = known_layers p
  /\ exists queries,
       calls (after_layers p) = calls p ++ queries
       /\ Forall (fun c => is_layer_enumeration c = true) queries
       /\ (available_layers p <> [] -> queries = []).
Proof.
  unfold after_layers, known_layers.
  destruct (available_layers p) as [|l rest] eqn:E.
  - rewrite (get_available_layers_empty p E). simpl.
    repeat split.
    eexists. split; [reflexivity|]. split.
    + repeat constructor.
    + intro Hne. now destruct Hne.
  - rewrite get_available_layers_cached by (rewrite E; discriminate).
    simpl. repeat split; [assumption|].
    exists []. rewrite app_nil_r. repeat split. constructor.
Qed.

Lemma after_extensions_frame (p : Process) :
  driver (snd (get_available_extensions p)) = driver p
  /\ available_layers (snd (get_available_extensions p)) = available_layers p
  /\ available_extensions (snd (get_available_extensions p))
     = known_extensions p
  /\ exists queries,
       calls (snd (get_available_extensions p)) = calls p ++ queries
       /\ Forall (fun c => is_extension_enumeration c = true) queries
       /\ (available_extensions p <> [] -> queries = []).
Proof.
  unfold known_extensions.
  destruct (available_extensions p) as [|l rest] eqn:E.
  - rewrite (get_available_extensions_empty p E). simpl.
    repeat split.
    eexists. split; [reflexivity|]. split.
    + repeat constructor.
    + intro Hne. now destruct Hne.
  - rewrite get_available_extensions_cached by (rewrite E; discriminate).
    simpl. repeat split; [assumption|].
    exists []. rewrite app_nil_r. repeat split. constructor.
Qed.

Lemma known_extensions_after_layers (p : Process) :
  known_extensions (after_layers p) = known_extensions p.
Proof.
  destruct (after_layers_frame p) as [Hd [He _]].
  unfold known_extensions. now rewrite He, Hd.
Qed.

(** The tests at instance.cc:65-66 ask whether the literal is among
    the required capabilities. *)
Lemma find_literal_requests {T} `{Capability T} (wanted : string)
      (required : list T) :
  Nat.eqb (List.length (find [of_literal wanted] required)) 0
  = requests wanted required.
Proof.
  rewrite find_filter. simpl. unfold absent_from, requests.
  assert (existsb (equals (of_literal wanted)) required
          = existsb (fun c => String.eqb (name c) wanted) required) as ->.
  { induction required as [|c rest IH]; simpl; [reflexivity|].
    rewrite IH. f_equal. unfold equals.
    rewrite name_of_literal. apply String.eqb_sym. }
  now destruct (existsb _ required).
Qed.

Lemma length_zero_nil {A} (l : list A) :
  Nat.eqb (List.length l) 0 = match l with [] => true | _ => false end.
Proof. now destruct l. Qed.

(** The constructor, outcome by outcome. *)
Lemma Instance_construct_run (application : Application)
      (required_layers : list Layer) (required_extensions : list Extension)
      (debug_callback : Callback) (p : Process) :
  Instance_construct application required_layers required_extensions
                     debug_callback p
  = match find required_layers (known_layers p) with
    | _ :: _ =>
        (Thrown (Exception_messages
                   "couldn't create instance!"
                   ("the layers(s): "
                    ++ collapse (find required_layers (known_layers p))
                    ++ "are missing!")),
         after_layers p)
    | [] =>
        match find required_extensions (known_extensions p) with
        | _ :: _ =>
            (Thrown (Exception_messages
                       "couldn't create instance!"
                       ("extension(s): "
                        ++ collapse (find required_extensions
                                          (known_extensions p))
                        ++ "are missing!")),
             after_extensions p)
        | [] =>
            let error :=
              driver_create_instance
                (driver p)
                (create_info_of application required_layers
                                required_extensions) in
            if Z.eqb error VK_SUCCESS
            then
              let new_handle := fresh_handle (after_extensions p) in
              let created :=
                record_call (after_extensions p)
                            (CreateInstance error new_handle) in
              if requests "VK_EXT_debug_utils" required_extensions
                 && requests "VK_LAYER_LUNARG_standard_validation"
                             required_layers
              then
                (Returned
                   (mkInstance application required_layers
                               required_extensions new_handle
                               (mkDebugMessenger new_handle
                                                 (fresh_handle created)
                                                 debug_callback)),
                 record_call created
                             (CreateDebugUtilsMessenger
                                new_handle (fresh_handle created)))
              else
                (Returned
                   (mkInstance application required_layers
                               required_extensions new_handle
                               default_DebugMessenger),
                 created)
            else
              (Thrown (Exception_result error "couldn't create instance!"),
               record_call (after_extensions p)
                           (CreateInstance error VK_NULL_HANDLE))
        end
    end.
Proof.
  unfold Instance_construct, find_layers, find_extensions.
  unfold bind at 1. unfold bind at 1.
  rewrite get_available_layers_run. unfold ret at 1.
  rewrite length_zero_nil.
  destruct (find required_layers (known_layers p)) as [|ml mls] eqn:EL;
    cbn [negb]; cbv beta iota; [|reflexivity].
  unfold bind at 1. unfold bind at 1.
  rewrite get_available_extensions_run, known_extensions_after_layers.
  fold (after_extensions p). unfold ret at 1.
  rewrite length_zero_nil.
  destruct (find required_extensions (known_extensions p)) as [|mx mxs] eqn:EX;
    cbn [negb]; cbv beta iota; [|reflexivity].
  rewrite !packed_names_map, !length_map.
  fold (create_info_of application required_layers required_extensions).
  unfold bind at 1. unfold vkCreateInstance.
  unfold bind at 1, get_process at 1. unfold bind at 1.
  unfold driver_call at 1. unfold ret at 1.
  assert (driver (after_extensions p) = driver p) as Hd.
  { unfold after_extensions.
    destruct (after_extensions_frame (after_layers p)) as [Hd _].
    destruct (after_layers_frame p) as [Hd' _]. congruence. }
  rewrite Hd.
  destruct (Z.eqb (driver_create_instance _ _) VK_SUCCESS) eqn:EC;
    cbv beta iota.
  - cbn [negb].
    rewrite (find_literal_requests "VK_EXT_debug_utils" required_extensions).
    rewrite (find_literal_requests "VK_LAYER_LUNARG_standard_validation"
                                   required_layers).
    destruct (requests "VK_EXT_debug_utils" required_extensions); simpl;
      [|reflexivity].
    destruct (requests "VK_LAYER_LUNARG_standard_validation" required_layers);
      simpl; reflexivity.
  - reflexivity.
Qed.

(* ------------------------------------------------------------------ *)
(** ** Destruction *)

Lemma swap_exchanges (lhs rhs : Instance) : swap lhs rhs = (rhs, lhs).
Proof. now destruct lhs, rhs. Qed.

Lemma DebugMessenger_destroy_calls (m : DebugMessenger) (p : Process) :
  exists released,
    calls (snd (DebugMessenger_destroy m p)) = calls p ++ released
    /\ fst (DebugMessenger_destroy m p)
       = Returned (if Z.eqb (messenger_handle m) VK_NULL_HANDLE
                   then m else default_DebugMessenger)
    /\ forall h, count_calls (is_destruction_of h) released = 0.
Proof.
  unfold DebugMessenger_destroy.
  destruct (Z.eqb (messenger_handle m) VK_NULL_HANDLE); cbn [negb].
  - exists []. rewrite app_nil_r. repeat split.
  - exists [DestroyDebugUtilsMessenger (messenger_instance m)
                                       (messenger_handle m)].
    repeat split.
Qed.

Lemma Instance_destruct_null (instance : Instance) (p : Process) :
  handle instance = VK_NULL_HANDLE ->
  messenger_handle (debug_utils_messenger instance) = VK_NULL_HANDLE ->
  Instance_destruct instance p = (Returned tt, p).
Proof.
  intros Hh Hm. unfold Instance_destruct, bind, DebugMessenger_destroy.
  rewrite Hh, Hm. reflexivity.
Qed.

Lemma Instance_destruct_counts (instance : Instance) (p : Process)
      (h : VkInstance) :
  count_calls (is_destruction_of h) (calls (snd (Instance_destruct instance p)))
  = count_calls (is_destruction_of h) (calls p)
    + (if negb (Z.eqb (handle instance) VK_NULL_HANDLE)
          && Z.eqb (handle instance) h
       then 1 else 0).
Proof.
  unfold Instance_destruct, bind.
  destruct (DebugMessenger_destroy_calls (debug_utils_messenger instance) p)
    as [released [Hc [Hr Hz]]].
  destruct (DebugMessenger_destroy (debug_utils_messenger instance) p)
    as [[m'|e] p1]; cbn [fst snd] in *; [|discriminate].
  destruct (Z.eqb (handle instance) VK_NULL_HANDLE); cbn [negb andb].
  - unfold ret. cbn [snd]. rewrite Hc.
    unfold count_calls in *. rewrite filter_app, length_app, Hz. lia.
  - unfold driver_call, record_call. cbn [snd calls]. rewrite Hc.
    unfold count_calls in *. rewrite !filter_app, !length_app, Hz.
    cbn [filter is_destruction_of].
    destruct (Z.eqb (handle instance) h); cbn; lia.
Qed.

(* ------------------------------------------------------------------ *)
(** ** Signs through rounding *)

Section RoundingSigns.
Variables prec emax : Z.

Lemma shr_1_nonneg (mrs : shr_record) :
  (0 <= shr_m mrs)%Z -> (0 <= shr_m (shr_1 mrs))%Z.
Proof.
  destruct mrs as [m r s]. simpl.
  destruct m as [|q|q]; simpl; intro Hm; try lia;
    destruct q; simpl; lia.
Qed.

Lemma iter_shr_1_nonneg (n : positive) (mrs : shr_record) :
  (0 <= shr_m mrs)%Z -> (0 <= shr_m (iter_pos shr_1 n mrs))%Z.
Proof.
  revert mrs. induction n as [n IH|n IH|]; intros mrs Hm; simpl.
  - apply IH, IH. now apply shr_1_nonneg.
  - now apply IH, IH.
  - now apply shr_1_nonneg.
Qed.

Lemma shr_fexp_nonneg (m e : Z) (l : location) :
  (0 <= m)%Z -> (0 <= shr_m (fst (shr_fexp prec emax m e l)))%Z.
Proof.
  intro Hm. unfold shr_fexp, shr.
  assert (0 <= shr_m (shr_record_of_loc m l))%Z as Hstart
      by (destruct l as [|[| |]]; exact Hm).
  destruct (fexp prec emax (Zdigits2 m + e) - e)%Z; simpl;
    try assumption.
  now apply iter_shr_1_nonneg.
Qed.

Lemma round_nearest_even_nonneg (m : Z) (l : location) :
  (0 <= m)%Z -> (0 <= round_nearest_even m l)%Z.
Proof.
  intro Hm. destruct l as [|[| |]]; simpl; try lia.
  destruct (Z.even m); lia.
Qed.

(** Rounding a magnitude keeps the sign it is given and never
    produces NaN. *)
Lemma binary_round_aux_sign (sx : bool) (mx ex : Z) (lx : location) :
  (0 <= mx)%Z ->
  match binary_round_aux prec emax sx mx ex lx with
  | S754_zero s | S754_infinity s | S754_finite s _ _ => s = sx
  | S754_nan => False
  end.
Proof.
  intro Hm. unfold binary_round_aux.
  pose proof (shr_fexp_nonneg ex lx Hm) as H1.
  destruct (shr_fexp prec emax mx ex lx) as [mrs' e']. simpl in H1.
  pose proof (shr_fexp_nonneg
                e' loc_Exact
                (round_nearest_even_nonneg (loc_of_shr_record mrs') H1))
    as H2.
  destruct (shr_fexp prec emax _ e' loc_Exact) as [mrs'' e'']. simpl in H2.
  destruct (shr_m mrs'') as [|q|q]; try reflexivity.
  - destruct (Z.leb e'' (emax - prec)); reflexivity.
  - lia.
Qed.

Lemma binary_round_sign (sx : bool) (mx : positive) (ex : Z) :
  match binary_round prec emax sx mx ex with
  | S754_zero s | S754_infinity s | S754_finite s _ _ => s = sx
  | S754_nan => False
  end.
Proof.
  unfold binary_round.
  destruct (shl_align mx ex _) as [mz ez].
  apply binary_round_aux_sign. lia.
Qed.
End RoundingSigns.

(* ------------------------------------------------------------------ *)
(** ** Numbers that are not negative *)

Lemma not_negative_cases (x : float) :
  not_negative x = true
  <-> match x with
      | S754_zero _ | S754_infinity false | S754_finite false _ _ => True
      | _ => False
      end.
Proof.
  unfold not_negative, fle, f0.
  destruct x as [s|s| |s m e]; try destruct s; simpl;
    split; intro Hx; try exact I; try reflexivity;
    try discriminate Hx; try destruct Hx.
Qed.

Lemma not_negative_not_nan (x : float) :
  not_negative x = true -> is_nan x = false.
Proof. intro H. apply not_negative_cases in H. now destruct x. Qed.

Lemma negative_sqrt_nan (x : float) :
  flt x f0 = true -> fsqrt x = S754_nan.
Proof.
  unfold flt, f0. destruct x as [s|s| |s m e]; try destruct s; simpl;
    try discriminate; reflexivity.
Qed.

Lemma fmul_nan_r (x : float) : fmul x S754_nan = S754_nan.
Proof. now destruct x. Qed.

Lemma fadd_nan_l (x : float) : fadd S754_nan x = S754_nan.
Proof. reflexivity. Qed.

Lemma fsqrt_not_negative (x : float) :
  not_negative x = true -> not_negative (fsqrt x) = true.
Proof.
  intro Hx. apply not_negative_cases in Hx. apply not_negative_cases.
  destruct x as [s|s| |s m e]; try destruct s; try destruct Hx;
    try exact I.
  unfold fsqrt, SFsqrt.
  destruct (SFsqrt_core_binary prec32 emax32 (Z.pos m) e) as [[mz ez] lz] eqn:E.
  assert (0 <= mz)%Z as Hmz.
  { unfold SFsqrt_core_binary in E.
    set (m' := match (e - 2 * Z.min _ _)%Z with
               | Z0 => Z.pos m
               | Zpos _ => Z.shiftl (Z.pos m) _
               | Zneg _ => 0%Z
               end) in E.
    assert (0 <= m')%Z as Hm'.
    { subst m'. destruct (e - 2 * Z.min _ _)%Z; try lia.
      apply Z.shiftl_nonneg. lia. }
    pose proof (Z.sqrtrem_spec m' Hm') as Hs.
    destruct (Z.sqrtrem m') as [q r].
    injection E as Hq _ _. subst mz. nia. }
  pose proof (binary_round_aux_sign prec32 emax32 false ez lz Hmz) as Hr.
  destruct (binary_round_aux prec32 emax32 false mz ez lz)
    as [s|s| |s m' e']; try subst s; try exact I. exact Hr.
Qed.

Lemma fmul_not_negative (x y : float) :
  not_negative x = true -> not_negative y = true ->
  is_infinity x = false -> is_infinity y = false ->
  not_negative (fmul x y) = true.
Proof.
  intros Hx Hy Fx Fy.
  apply not_negative_cases in Hx, Hy. apply not_negative_cases.
  destruct x as [sx|sx| |sx mx ex]; try discriminate; try destruct Hx;
    destruct y as [sy|sy| |sy my ey]; try discriminate; try destruct Hy;
    try exact I.
  destruct sx; [destruct Hx|]. destruct sy; [destruct Hy|].
  unfold fmul, SFmul. cbn [xorb].
  assert (0 <= Z.pos (mx * my))%Z as Hm by lia.
  pose proof (binary_round_aux_sign prec32 emax32 false (ex + ey) loc_Exact Hm)
    as Hr.
  destruct (binary_round_aux prec32 emax32 false _ (ex + ey) loc_Exact)
    as [s|s| |s m' e']; try subst s; try exact I. exact Hr.
Qed.

Lemma fadd_not_negative (x y : float) :
  not_negative x = true -> not_negative y = true ->
  not_negative (fadd x y) = true.
Proof.
  intros Hx Hy.
  apply not_negative_cases in Hx, Hy. apply not_negative_cases.
  destruct x as [sx|sx| |sx mx ex]; try destruct Hx;
    destruct y as [sy|sy| |sy my ey]; try destruct Hy;
    try destruct sx; try destruct sy; try destruct Hx; try destruct Hy;
    try exact I.
  unfold fadd, SFadd. cbn [cond_Zopp].
  set (ez := Z.min ex ey).
  destruct (shl_align mx ex ez) as [ax ea].
  destruct (shl_align my ey ez) as [ay eb]. cbn [fst].
  change (Z.pos ax + Z.pos ay)%Z with (Z.pos (ax + ay)).
  unfold binary_normalize.
  pose proof (binary_round_sign prec32 emax32 false (ax + ay) ez) as Hr.
  destruct (binary_round prec32 emax32 false (ax + ay) ez)
    as [s|s| |s m' e']; try subst s; try exact I. exact Hr.
Qed.

(* ------------------------------------------------------------------ *)
(** ** The clamp to the unit interval *)

Lemma positive_finite_order (ma : positive) (ea : Z) (mb : positive) (eb : Z) :
  flt (S754_finite false ma ea) (S754_finite false mb eb) = false ->
  fle (S754_finite false mb eb) (S754_finite false ma ea) = true.
Proof.
  unfold flt, fle, SFltb, SFleb, SFcompare.
  rewrite (Z.compare_antisym eb ea).
  assert (Pos.compare_cont Eq ma mb = CompOpp (Pos.compare_cont Eq mb ma))
    as -> by (now rewrite Pos.compare_cont_antisym).
  destruct (Z.compare eb ea); simpl; try discriminate; try reflexivity.
  destruct (Pos.compare_cont Eq mb ma); simpl;
    try discriminate; reflexivity.
Qed.

Lemma clamp_unit_range (x : float) :
  is_nan x = false ->
  fle f0 (clamp x f0 f1) = true
  /\ fle (clamp x f0 f1) f1 = true
  /\ is_infinity (clamp x f0 f1) = false.
Proof.
  intro Hx. unfold clamp, fmax, fmin.
  destruct x as [s|s| |s m e]; try discriminate Hx.
  - destruct s; repeat split.
  - destruct s; repeat split.
  - destruct s.
    + repeat split.
    + change (flt (S754_finite false m e) f0) with false. cbv iota.
      destruct (flt f1 (S754_finite false m e)) eqn:E.
      * repeat split.
      * repeat split. unfold f1 in *. now apply positive_finite_order.
Qed.

(* ------------------------------------------------------------------ *)
(** ** Square roots of finite numbers are finite *)

Lemma digits2_pos_size (m : positive) : digits2_pos m = Pos.size m.
Proof. induction m as [m IH|m IH|]; simpl; now rewrite ?IH. Qed.

Lemma Zdigits2_log2 (n : Z) :
  (0 < n)%Z -> Zdigits2 n = (Z.log2 n + 1)%Z.
Proof.
  destruct n as [|q|q]; try lia. intros _. simpl.
  rewrite digits2_pos_size.
  destruct q; simpl; lia.
Qed.

Lemma Zdigits2_below (n k : Z) :
  (0 <= n < 2 ^ k)%Z -> (0 <= k)%Z -> (Zdigits2 n <= k)%Z.
Proof.
  intros [Hn Hk] Hk0.
  destruct (Z.eq_dec n 0) as [->|Hnz]; [simpl; lia|].
  rewrite Zdigits2_log2 by lia.
  assert (Z.log2 n < k)%Z by (apply Z.log2_lt_pow2; lia). lia.
Qed.

Lemma Zdigits2_above (n : Z) :
  (0 < n)%Z -> (n < 2 ^ Zdigits2 n)%Z.
Proof.
  intro Hn. rewrite Zdigits2_log2 by assumption.
  apply (Z.log2_spec n Hn).
Qed.

Lemma shr_1_le (mrs : shr_record) :
  (0 <= shr_m mrs)%Z -> (shr_m (shr_1 mrs) <= shr_m mrs)%Z.
Proof.
  destruct mrs as [m r s]. simpl.
  destruct m as [|q|q]; simpl; intro Hm; try lia;
    destruct q; simpl; lia.
Qed.

Lemma iter_shr_1_le (n : positive) (mrs : shr_record) :
  (0 <= shr_m mrs)%Z -> (shr_m (iter_pos shr_1 n mrs) <= shr_m mrs)%Z.
Proof.
  revert mrs. induction n as [n IH|n IH|]; intros mrs Hm; simpl.
  - pose proof (shr_1_le mrs Hm) as H1.
    pose proof (shr_1_nonneg mrs Hm) as N1.
    pose proof (IH _ N1) as H2.
    pose proof (iter_shr_1_nonneg n _ N1) as N2.
    pose proof (IH _ N2) as H3. lia.
  - pose proof (IH _ Hm) as H2.
    pose proof (iter_shr_1_nonneg n _ Hm) as N2.
    pose proof (IH _ N2) as H3. lia.
  - now apply shr_1_le.
Qed.

Lemma shr_fexp_bounds (m e : Z) (l : location) :
  (0 <= m)%Z ->
  (0 <= shr_m (fst (shr_fexp prec32 emax32 m e l)) <= m)%Z
  /\ (snd (shr_fexp prec32 emax32 m e l) = e
      \/ snd (shr_fexp prec32 emax32 m e l)
         = fexp prec32 emax32 (Zdigits2 m + e)).
Proof.
  intro Hm. split; [split; [now apply shr_fexp_nonneg|]|].
  - unfold shr_fexp, shr.
    assert (shr_m (shr_record_of_loc m l) = m) as Hstart
        by (now destruct l as [|[| |]]).
    destruct (fexp prec32 emax32 (Zdigits2 m + e) - e)%Z; simpl;
      try lia.
    rewrite <- Hstart at 2. apply iter_shr_1_le. lia.
  - unfold shr_fexp, shr.
    destruct (fexp prec32 emax32 (Zdigits2 m + e) - e)%Z eqn:E; simpl;
      [now left|right; lia|now left].
Qed.

Lemma binary_round_aux_no_overflow (sx : bool) (mx ex : Z) (lx : location) :
  (0 <= mx < 2 ^ 37)%Z -> (ex <= 52)%Z ->
  is_infinity (binary_round_aux prec32 emax32 sx mx ex lx) = false.
Proof.
  intros [Hm0 Hm] He. unfold binary_round_aux.
  destruct (shr_fexp_bounds ex lx Hm0) as [[H1a H1b] H1e].
  destruct (shr_fexp prec32 emax32 mx ex lx) as [mrs' e1].
  cbn [fst snd] in *.
  pose proof (Zdigits2_below (conj Hm0 Hm) ltac:(lia)) as Hd.
  assert (e1 <= 65)%Z as He1.
  { unfold fexp, emin, prec32, emax32 in H1e. lia. }
  set (m1 := round_nearest_even (shr_m mrs') (loc_of_shr_record mrs')).
  assert (0 <= m1 <= mx + 1)%Z as Hm1.
  { subst m1. destruct (loc_of_shr_record mrs') as [|[| |]]; simpl; try lia.
    destruct (Z.even (shr_m mrs')); lia. }
  assert (Zdigits2 m1 <= 38)%Z as Hd1.
  { apply Zdigits2_below; lia. }
  destruct (shr_fexp_bounds e1 loc_Exact (proj1 Hm1)) as [_ H2e].
  destruct (shr_fexp prec32 emax32 m1 e1 loc_Exact) as [mrs'' e2].
  cbn [fst snd] in *.
  assert (e2 <= 104)%Z as He2.
  { unfold fexp, emin, prec32, emax32 in H2e. lia. }
  destruct (shr_m mrs''); try reflexivity.
  unfold emax32, prec32.
  destruct (Z.leb_spec e2 (128 - 24)); [reflexivity|lia].
Qed.

Lemma fsqrt_finite (x : float) :
  is_finite x = true -> is_infinity (fsqrt x) = false.
Proof.
  destruct x as [s|s| |s m e]; try discriminate; intro Hx;
    try reflexivity.
  destruct s; [reflexivity|].
  unfold is_finite, bounded, canonical_mantissa in Hx.
  apply andb_prop in Hx. destruct Hx as [Hc Hb].
  apply Z.eqb_eq in Hc. apply Z.leb_le in Hb.
  unfold fexp, emin, prec32, emax32 in Hc, Hb.
  assert (Z.pos (digits2_pos m) <= 24)%Z as Hd by lia.
  assert (-149 <= e)%Z as Hlow by lia.
  assert (Z.pos m < 2 ^ 24)%Z as Hm.
  { pose proof (@Zdigits2_above (Z.pos m) ltac:(lia)) as Ha. simpl in Ha.
    assert (2 ^ Z.pos (digits2_pos m) <= 2 ^ 24)%Z
      by (apply Z.pow_le_mono_r; lia).
    lia. }
  unfold fsqrt, SFsqrt, SFsqrt_core_binary.
  rewrite !Z.div2_div.
  set (d := Zdigits2 (Z.pos m)).
  assert (1 <= d <= 24)%Z as Hdd by (subst d; simpl; lia).
  clearbody d.
  set (e' := Z.min (fexp prec32 emax32 ((d + e + 1) / 2)) (e / 2)).
  assert (e' <= 52)%Z as He'
      by (subst e'; unfold fexp, emin, prec32, emax32;
          Z.to_euclidean_division_equations; lia).
  assert (0 <= e - 2 * e' <= 49)%Z as Hs
      by (subst e'; unfold fexp, emin, prec32, emax32;
          Z.to_euclidean_division_equations; lia).
  clearbody e'.
  set (m' := match (e - 2 * e')%Z with
             | Z0 => Z.pos m
             | Zpos _ => Z.shiftl (Z.pos m) (e - 2 * e')
             | Zneg _ => 0%Z
             end).
  assert (0 <= m' < 2 ^ 73)%Z as Hm'.
  { assert (m' = Z.pos m * 2 ^ (e - 2 * e'))%Z as ->.
    { subst m'. destruct (e - 2 * e')%Z eqn:Es; try lia.
      - rewrite Z.shiftl_mul_pow2 by lia. reflexivity. }
    assert (0 < 2 ^ (e - 2 * e') <= 2 ^ 49)%Z as Hp.
    { split; [apply Z.pow_pos_nonneg; lia|apply Z.pow_le_mono_r; lia]. }
    change (2 ^ 73)%Z with (2 ^ 24 * 2 ^ 49)%Z. nia. }
  pose proof (Z.sqrtrem_spec m' (proj1 Hm')) as Hq.
  destruct (Z.sqrtrem m') as [q r].
  apply binary_round_aux_no_overflow; [|exact He'].
  assert (0 <= q)%Z by nia.
  split; [assumption|].
  assert (q * q < 2 ^ 37 * 2 ^ 37)%Z as Hqq.
  { change (2 ^ 37 * 2 ^ 37)%Z with (2 ^ 74)%Z.
    assert (2 ^ 73 < 2 ^ 74)%Z by reflexivity. nia. }
  assert (0 < 2 ^ 37)%Z by reflexivity. nia.
Qed.

Lemma intensity_cases (x : float) :
  intensity x = true -> not_negative x = true /\ is_infinity x = false.
Proof.
  unfold intensity. intro H. apply andb_prop in H. destruct H as [Hf Hn].
  split; [assumption|]. now destruct x.
Qed.

Lemma all3_intensity (v : vec3) :
  all3 intensity v = true ->
  (not_negative (v3x v) = true /\ is_infinity (v3x v) = false)
  /\ (not_negative (v3y v) = true /\ is_infinity (v3y v) = false)
  /\ (not_negative (v3z v) = true /\ is_infinity (v3z v) = false).
Proof.
  unfold all3. intro H.
  apply andb_prop in H. destruct H as [H Hz].
  apply andb_prop in H. destruct H as [Hx Hy].
  repeat split; now apply intensity_cases.
Qed.

(* ------------------------------------------------------------------ *)
(** ** Multiplying by one, adding to zero *)

Lemma shifted_mantissa (m : positive) :
  (m * 8388608)%positive
  = (m~0~0~0~0~0~0~0~0~0~0~0~0~0~0~0~0~0~0~0~0~0~0~0)%positive.
Proof. rewrite Pos.mul_comm. reflexivity. Qed.

Lemma fmul_one (x : float) : is_finite x = true -> fmul x f1 = x.
Proof.
  destruct x as [s|s| |s m e]; try discriminate; intro Hx.
  - now destruct s.
  - unfold is_finite, bounded, canonical_mantissa in Hx.
    apply andb_prop in Hx. destruct Hx as [Hc Hb].
    apply Z.eqb_eq in Hc.
    unfold fmul, f1, SFmul. rewrite xorb_false_r.
    unfold binary_round_aux.
    assert (shr_fexp prec32 emax32 (Z.pos (m * 8388608)) (e + -23) loc_Exact
            = (Build_shr_record (Z.pos m) false false, e)) as ->.
    { unfold shr_fexp.
      assert (Zdigits2 (Z.pos (m * 8388608)) + (e + -23)
              = Z.pos (digits2_pos m) + e)%Z as ->.
      { rewrite shifted_mantissa. cbn [Zdigits2 digits2_pos].
        rewrite !Pos2Z.inj_succ. lia. }
      rewrite Hc.
      replace (e - (e + -23))%Z with 23%Z by lia.
      rewrite shifted_mantissa. unfold shr. simpl.
      f_equal. lia. }
    cbn [shr_m loc_of_shr_record round_nearest_even].
    assert (shr_fexp prec32 emax32 (Z.pos m) e loc_Exact
            = (Build_shr_record (Z.pos m) false false, e)) as ->.
    { unfold shr_fexp. cbn [Zdigits2]. rewrite Hc, Z.sub_diag.
      reflexivity. }
    cbn [shr_m]. now rewrite Hb.
Qed.

Lemma fmul_zero_r (x : float) :
  is_finite x = true -> is_zero (fmul x f0) = true.
Proof. destruct x as [s|s| |s m e]; try discriminate; reflexivity. Qed.

Lemma feq_refl (x : float) : is_finite x = true -> feq x x = true.
Proof.
  destruct x as [s|s| |s m e]; try discriminate; intros _.
  - reflexivity.
  - unfold feq, SFeqb, SFcompare.
    rewrite Z.compare_refl, Pos.compare_cont_refl. now destruct s.
Qed.

Lemma fadd_zero_l (z x : float) :
  is_zero z = true -> is_finite x = true -> feq (fadd z x) x = true.
Proof.
  destruct z as [sz|sz| |sz mz ez]; try discriminate; intros _.
  destruct x as [s|s| |s m e]; try discriminate; intro Hx.
  - now destruct sz, s.
  - now apply feq_refl.
Qed.

(* ================================================================== *)
(** * The capability negotiator *)

(** C3.  For every requested list and every available list, [find]
    returns exactly the requested entries that no available entry equals
    by name; reordering either list only reorders the result; and the
    result is empty exactly when every requested entry has an available
    entry of the same name. *)
Theorem find_exactly_the_missing :
  forall (T : Type) (C : Capability T) (requested available : list T),
    (forall r, In r (find requested available)
               <-> In r requested
                   /\ forall a, In a available -> name a <> name r)
    /\ (forall requested' available',
           Permutation requested requested' ->
           Permutation available available' ->
           Permutation (find requested available)
                       (find requested' available')
           /\ forall r, In r (find requested available)
                        <-> In r (find requested' available'))
    /\ (find requested available = []
        <-> forall r, In r requested ->
                      exists a, In a available /\ name a = name r).
Proof.
  intros T C requested available. split; [|split].
  - intro r. apply find_In.
  - intros requested' available' Hr Ha.
    pose proof (find_Permutation Hr Ha) as Hp.
    split; [exact Hp|].
    intro r. split; intro Hin.
    + eapply Permutation_in; eassumption.
    + eapply Permutation_in; [symmetry; eassumption|assumption].
  - apply find_nil.
Qed.

(** C3 at [VK_KHR_surface; VK_EXT_debug_utils] against
    [VK_KHR_surface; VK_KHR_display], both lists reversed. *)
Lemma find_exactly_the_missing_witness :
  Permutation
    (find [mkExtension "VK_KHR_surface" 25; mkExtension "VK_EXT_debug_utils" 1]
          [mkExtension "VK_KHR_surface" 25; mkExtension "VK_KHR_display" 23])
    (find [mkExtension "VK_EXT_debug_utils" 1; mkExtension "VK_KHR_surface" 25]
          [mkExtension "VK_KHR_display" 23; mkExtension "VK_KHR_surface" 25]).
Proof.
  apply (proj1 (proj2 (find_exactly_the_missing
                         Extension_Capability
                         [mkExtension "VK_KHR_surface" 25;
                          mkExtension "VK_EXT_debug_utils" 1]
                         [mkExtension "VK_KHR_surface" 25;
                          mkExtension "VK_KHR_display" 23]))).
  - apply perm_swap.
  - apply perm_swap.
Defined.

(** C10.  [find] returns the missing entries in the order in which the
    requested list has them, duplicates included: the result is the
    requested list with the available entries struck out, and an entry
    that no available entry equals occurs as often in the result as in
    the requested list. *)
Theorem find_keeps_order_and_duplicates :
  forall (T : Type) (C : Capability T) (requested available : list T),
    find requested available = filter (absent_from available) requested
    /\ forall r,
         (forall a, In a available -> name a <> name r) ->
         occurrences r (find requested available) = occurrences r requested.
Proof.
  intros T C requested available. split.
  - apply find_filter.
  - intros r Habsent. unfold occurrences.
    rewrite find_filter. apply filter_filter_length.
    intros u Heq.
    rewrite <- (@absent_from_equals _ _ available r u Heq).
    now apply absent_from_spec.
Qed.

(** C10 at a request that names a missing layer twice, around an
    available one. *)
Lemma find_keeps_order_and_duplicates_witness :
  occurrences layer_a (find [layer_a; layer_b; layer_a] [layer_b]) = 2.
Proof.
  rewrite (proj2 (find_keeps_order_and_duplicates
                    Layer_Capability [layer_a; layer_b; layer_a] [layer_b])
                 layer_a).
  - reflexivity.
  - intros a [Ha|[]]. subst a. simpl. discriminate.
Defined.

(* ================================================================== *)
(** * The instance: construction *)

(** C4.  When the constructor fails for missing capabilities, its
    message names every missing entry: either some requested layer is
    missing, the message is the layer message, it names every requested
    layer without an available namesake, and the extensions have not
    been looked at; or no layer is missing and the message names every
    requested extension without an available namesake. *)
Theorem missing_capabilities_all_named :
  forall (application : Application) (required_layers : list Layer)
         (required_extensions : list Extension) (debug_callback : Callback)
         (p p' : Process) (what why : string),
    Instance_construct application required_layers required_extensions
                       debug_callback p
    = (Thrown (Exception_messages what why), p') ->
    (find required_layers (known_layers p) <> []
     /\ why = ("the layers(s): "
               ++ collapse (find required_layers (known_layers p))
               ++ "are missing!")%string
     /\ (forall l, In l required_layers ->
                   (forall a, In a (known_layers p) -> name a <> name l) ->
                   enumerated_in why (name l))
     /\ available_extensions p' = available_extensions p
     /\ count_calls is_extension_enumeration (calls p')
        = count_calls is_extension_enumeration (calls p))
    \/ (find required_layers (known_layers p) = []
        /\ find required_extensions (known_extensions p) <> []
        /\ why = ("extension(s): "
                  ++ collapse (find required_extensions (known_extensions p))
                  ++ "are missing!")%string
        /\ (forall x, In x required_extensions ->
                      (forall a, In a (known_extensions p) ->
                                 name a <> name x) ->
                      enumerated_in why (name x))).
Proof.
  intros application required_layers required_extensions debug_callback
         p p' what why Hrun.
  rewrite Instance_construct_run in Hrun.
  destruct (find required_layers (known_layers p)) as [|ml mls] eqn:EL.
  - right. split; [reflexivity|].
    destruct (find required_extensions (known_extensions p))
      as [|mx mxs] eqn:EX.
    + cbv zeta in Hrun.
      destruct (Z.eqb _ VK_SUCCESS);
        [destruct (_ && _)|]; discriminate.
    + injection Hrun as _ Hwhy _. subst why.
      split; [discriminate|]. split; [reflexivity|].
      intros x Hin Habsent.
      apply (@enumerated_in_framed (collapse (mx :: mxs)) (name x)
                                   "extension(s): " "are missing!").
      apply collapse_enumerates.
      rewrite <- EX. apply find_In. now split.
  - left. injection Hrun as _ Hwhy Hp. subst why p'.
    split; [discriminate|]. split; [reflexivity|].
    destruct (after_layers_frame p) as [_ [He [_ [queries [Hc [Hq _]]]]]].
    split; [|split; [exact He|]].
    + intros l Hin Habsent.
      apply (@enumerated_in_framed (collapse (ml :: mls)) (name l)
                                   "the layers(s): " "are missing!").
      apply collapse_enumerates.
      rewrite <- EL. apply find_In. now split.
    + rewrite Hc. unfold count_calls. rewrite filter_app, length_app.
      assert (filter is_extension_enumeration queries = []) as ->.
      { clear Hc. induction Hq as [|c queries Hc Hq IH]; [reflexivity|].
        simpl. destruct c; try discriminate. exact IH. }
      simpl. lia.
Qed.

(** C4 where both a layer and an extension are missing: the layer is
    the one reported. *)
Lemma missing_capabilities_all_named_witness :
  enumerated_in
    "the layers(s): VK_LAYER_missing are missing!"
    "VK_LAYER_missing".
Proof.
  destruct (@missing_capabilities_all_named
              sample_application
              [missing_layer]
              [mkExtension "VK_EXT_missing" 0]
              0%Z
              (fresh_process sample_driver)
              (after_layers (fresh_process sample_driver))
              "couldn't create instance!"
              "the layers(s): VK_LAYER_missing are missing!"
              eq_refl)
    as [[_ [_ [Hall _]]] | [Hnone _]].
  - apply (Hall (missing_layer)).
    + now left.
    + intros a [Ha|[]]. subst a. simpl. discriminate.
  - discriminate Hnone.
Defined.

(** C7.  When the constructor fails for missing capabilities, the only
    driver calls it has made are enumerations: no instance and no debug
    messenger has been created when the exception leaves. *)
Theorem no_driver_object_on_missing_capability :
  forall (application : Application) (required_layers : list Layer)
         (required_extensions : list Extension) (debug_callback : Callback)
         (p p' : Process) (what why : string),
    Instance_construct application required_layers required_extensions
                       debug_callback p
    = (Thrown (Exception_messages what why), p') ->
    driver p' = driver p
    /\ exists queries,
         calls p' = calls p ++ queries
         /\ Forall (fun c => is_enumeration c = true) queries.
Proof.
  intros application required_layers required_extensions debug_callback
         p p' what why Hrun.
  rewrite Instance_construct_run in Hrun.
  destruct (after_layers_frame p) as [Hd [_ [_ [ql [Hcl [Hql _]]]]]].
  destruct (after_extensions_frame (after_layers p))
    as [Hd' [_ [_ [qx [Hcx [Hqx _]]]]]].
  fold (after_extensions p) in Hd', Hcx.
  destruct (find required_layers (known_layers p)) as [|ml mls].
  - destruct (find required_extensions (known_extensions p)) as [|mx mxs].
    + cbv zeta in Hrun.
      destruct (Z.eqb _ VK_SUCCESS);
        [destruct (_ && _)|]; discriminate.
    + injection Hrun as _ _ Hp. subst p'.
      split; [congruence|].
      exists (ql ++ qx). rewrite Hcx, Hcl, app_assoc.
      split; [reflexivity|].
      apply Forall_app. split.
      * eapply Forall_impl; [|exact Hql]. intros c Hc. now destruct c.
      * eapply Forall_impl; [|exact Hqx]. intros c Hc. now destruct c.
  - injection Hrun as _ _ Hp. subst p'.
    split; [assumption|].
    exists ql. split; [assumption|].
    eapply Forall_impl; [|exact Hql]. intros c Hc. now destruct c.
Qed.

(** C7 at a request for an extension the driver does not have. *)
Lemma no_driver_object_on_missing_capability_witness :
  exists queries,
    calls (after_extensions (fresh_process sample_driver))
    = calls (fresh_process sample_driver) ++ queries
    /\ Forall (fun c => is_enumeration c = true) queries.
Proof.
  apply (@no_driver_object_on_missing_capability
           sample_application [] [mkExtension "VK_EXT_missing" 0] 0%Z
           (fresh_process sample_driver)
           (after_extensions (fresh_process sample_driver))
           "couldn't create instance!"
           "extension(s): VK_EXT_missing are missing!"
           eq_refl).
Defined.

(** C2, as the specification has it, fails: a construction that asks
    for neither the debug-utilities extension nor the validation layer
    succeeds and attaches no messenger, and none is created. *)
Lemma messenger_without_request_refuted :
  let instance :=
    mkInstance sample_application [] [] 5%Z default_DebugMessenger in
  let p' :=
    mkProcess
      sample_driver
      [mkLayer "VK_LAYER_LUNARG_standard_validation" "validation" 1 1]
      [mkExtension "VK_KHR_surface" 25; mkExtension "VK_EXT_debug_utils" 1]
      [EnumerateInstanceLayerProperties; EnumerateInstanceLayerProperties;
       EnumerateInstanceExtensionProperties;
       EnumerateInstanceExtensionProperties;
       CreateInstance VK_SUCCESS 5%Z] in
  Instance_construct sample_application [] [] 0%Z
                     (fresh_process sample_driver)
  = (Returned instance, p')
  /\ requests "VK_EXT_debug_utils" (@nil Extension) = false
  /\ requests "VK_LAYER_LUNARG_standard_validation" (@nil Layer) = false
  /\ has_messenger instance = false
  /\ count_calls is_messenger_creation (calls p') = 0.
Proof. repeat split. Qed.

(** C2, amended.  A successful construction attaches a debug messenger
    exactly when the required extensions name [VK_EXT_debug_utils] and
    the required layers name [VK_LAYER_LUNARG_standard_validation]; it
    then creates exactly one, and none otherwise. *)
Theorem messenger_attached_when_both_requested :
  forall (application : Application) (required_layers : list Layer)
         (required_extensions : list Extension) (debug_callback : Callback)
         (p p' : Process) (instance : Instance),
    Instance_construct application required_layers required_extensions
                       debug_callback p
    = (Returned instance, p') ->
    (has_messenger instance = true
     <-> requests "VK_EXT_debug_utils" required_extensions = true
         /\ requests "VK_LAYER_LUNARG_standard_validation"
                     required_layers = true)
    /\ count_calls is_messenger_creation (calls p')
       = count_calls is_messenger_creation (calls p)
         + (if has_messenger instance then 1 else 0).
Proof.
  intros application required_layers required_extensions debug_callback
         p p' instance Hrun.
  rewrite Instance_construct_run in Hrun.
  destruct (after_layers_frame p) as [_ [_ [_ [ql [Hcl [Hql _]]]]]].
  destruct (after_extensions_frame (after_layers p))
    as [_ [_ [_ [qx [Hcx [Hqx _]]]]]].
  fold (after_extensions p) in Hcx.
  assert (count_calls is_messenger_creation (calls (after_extensions p))
          = count_calls is_messenger_creation (calls p)) as Hsame.
  { rewrite Hcx, Hcl. unfold count_calls.
    rewrite !filter_app, !length_app.
    assert (filter is_messenger_creation ql = []) as ->.
    { clear Hcl. induction Hql as [|c ql Hc Hql IH]; [reflexivity|].
      simpl. destruct c; try discriminate. exact IH. }
    assert (filter is_messenger_creation qx = []) as ->.
    { clear Hcx. induction Hqx as [|c qx Hc Hqx IH]; [reflexivity|].
      simpl. destruct c; try discriminate. exact IH. }
    simpl. lia. }
  destruct (find required_layers (known_layers p)); [|discriminate].
  destruct (find required_extensions (known_extensions p)); [|discriminate].
  cbv zeta in Hrun.
  destruct (Z.eqb _ VK_SUCCESS); [|discriminate].
  destruct (requests "VK_EXT_debug_utils" required_extensions);
    destruct (requests "VK_LAYER_LUNARG_standard_validation" required_layers);
    cbn [andb] in Hrun; injection Hrun as Hi Hp; subst instance p'.
  - assert (has_messenger
              (mkInstance application required_layers required_extensions
                 (fresh_handle (after_extensions p))
                 (mkDebugMessenger
                    (fresh_handle (after_extensions p))
                    (fresh_handle
                       (record_call (after_extensions p)
                          (CreateInstance
                             (driver_create_instance (driver p)
                                (create_info_of application required_layers
                                                required_extensions))
                             (fresh_handle (after_extensions p)))))
                    debug_callback))
            = true) as Hm.
    { unfold has_messenger, fresh_handle, VK_NULL_HANDLE.
      cbn [debug_utils_messenger messenger_handle].
      apply negb_true_iff, Z.eqb_neq. lia. }
    rewrite Hm. split; [tauto|].
    unfold record_call. cbn [calls]. unfold count_calls in *.
    rewrite !filter_app, !length_app. cbn. lia.
  - split; [split; [discriminate|intros [_ Hf]; discriminate]|].
    unfold record_call. cbn [calls]. unfold count_calls in *.
    rewrite !filter_app, !length_app. cbn. lia.
  - split; [split; [discriminate|intros [Hf _]; discriminate]|].
    unfold record_call. cbn [calls]. unfold count_calls in *.
    rewrite !filter_app, !length_app. cbn. lia.
  - split; [split; [discriminate|intros [Hf _]; discriminate]|].
    unfold record_call. cbn [calls]. unfold count_calls in *.
    rewrite !filter_app, !length_app. cbn. lia.
Qed.

(** C2, amended, at a request for both the extension and the layer. *)
Lemma messenger_attached_when_both_requested_witness :
  has_messenger
    (mkInstance sample_application
                [validation_layer]
                [debug_utils]
                5%Z (mkDebugMessenger 5%Z 6%Z 7%Z))
  = true.
Proof.
  apply (proj1 (@messenger_attached_when_both_requested
                  sample_application
                  [validation_layer]
                  [debug_utils]
                  7%Z
                  (fresh_process sample_driver)
                  (record_call
                     (record_call
                        (after_extensions (fresh_process sample_driver))
                        (CreateInstance VK_SUCCESS 5%Z))
                     (CreateDebugUtilsMessenger 5%Z 6%Z))
                  (mkInstance
                     sample_application
                     [validation_layer]
                     [debug_utils]
                     5%Z (mkDebugMessenger 5%Z 6%Z 7%Z))
                  eq_refl)).
  split; reflexivity.
Defined.

(* ================================================================== *)
(** * The static caches *)

(** Once a call has found something to cache, the next call answers
    from the cache: same collection, same process state, no driver
    call. *)
Lemma get_available_layers_memoized (p : Process) :
  known_layers p <> [] ->
  get_available_layers (after_layers p)
  = (Returned (known_layers p), after_layers p).
Proof.
  intro Hne.
  destruct (after_layers_frame p) as [_ [_ [Hl _]]].
  rewrite get_available_layers_cached by congruence.
  now rewrite Hl.
Qed.

Lemma get_available_extensions_memoized (p : Process) :
  known_extensions p <> [] ->
  get_available_extensions (snd (get_available_extensions p))
  = (Returned (known_extensions p), snd (get_available_extensions p)).
Proof.
  intro Hne.
  destruct (after_extensions_frame p) as [_ [_ [Hx _]]].
  rewrite get_available_extensions_cached by congruence.
  now rewrite Hx.
Qed.

(** C5.  On a driver that reports no layer, the cache stays empty after
    the first call of [get_available_layers], and the second call
    enumerates the driver's layers again: two driver calls after the
    first call, four after the second. *)
Theorem layers_enumerated_again_when_none :
  let p0 := fresh_process bare_driver in
  let p1 := snd (get_available_layers p0) in
  let p2 := snd (get_available_layers p1) in
  fst (get_available_layers p0) = Returned []
  /\ available_layers p1 = []
  /\ fst (get_available_layers p1) = Returned []
  /\ count_calls is_layer_enumeration (calls p1) = 2
  /\ count_calls is_layer_enumeration (calls p2) = 4.
Proof. repeat split. Qed.

(* ================================================================== *)
(** * The instance: moves and destruction *)

(** C6, as the specification has it, fails for the move assignment:
    assigning into an instance that is alive leaves the moved-from
    object with that instance's handle, and its destructor then calls
    [vkDestroyInstance]. *)
Lemma move_assign_leaves_source_live :
  Instance_move_assign second_instance first_instance
  = (first_instance, second_instance)
  /\ handle (snd (Instance_move_assign second_instance first_instance))
     = 9%Z
  /\ handle (snd (Instance_move_assign second_instance first_instance))
     <> VK_NULL_HANDLE
  /\ calls (snd (Instance_destruct
                   (snd (Instance_move_assign second_instance first_instance))
                   (fresh_process sample_driver)))
     = [DestroyInstance 9%Z].
Proof. repeat split. discriminate. Qed.

(** C6, amended.  Both moves exchange the two objects' members.  The
    move constructor exchanges with a new object, so the new object
    holds everything the source held, the source is left with the null
    handle and no messenger, destroying the source calls the driver not
    at all, and destroying the new object destroys the handle once.
    The move assignment leaves the source with what the assigned object
    held; when the two hold different live handles, destroying both
    objects destroys each handle once. *)
Theorem move_exchanges_ownership :
  forall (this instance : Instance) (p : Process),
    (fst (Instance_move_construct instance) = instance
     /\ snd (Instance_move_construct instance) = default_Instance
     /\ handle (snd (Instance_move_construct instance)) = VK_NULL_HANDLE
     /\ Instance_destruct (snd (Instance_move_construct instance)) p
        = (Returned tt, p)
     /\ (handle instance <> VK_NULL_HANDLE ->
         count_calls (is_destruction_of (handle instance))
                     (calls (snd (Instance_destruct
                                    (fst (Instance_move_construct instance))
                                    p)))
         = count_calls (is_destruction_of (handle instance)) (calls p) + 1))
    /\ (fst (Instance_move_assign this instance) = instance
        /\ snd (Instance_move_assign this instance) = this
        /\ (handle this <> VK_NULL_HANDLE ->
            handle instance <> VK_NULL_HANDLE ->
            handle this <> handle instance ->
            let p1 := snd (Instance_destruct
                             (snd (Instance_move_assign this instance)) p) in
            let p2 := snd (Instance_destruct
                             (fst (Instance_move_assign this instance)) p1) in
            count_calls (is_destruction_of (handle this)) (calls p2)
            = count_calls (is_destruction_of (handle this)) (calls p) + 1
            /\ count_calls (is_destruction_of (handle instance)) (calls p2)
               = count_calls (is_destruction_of (handle instance)) (calls p)
                 + 1)).
Proof.
  intros this instance p.
  unfold Instance_move_construct, Instance_move_assign.
  rewrite !swap_exchanges. cbn [fst snd].
  split; [|split; [reflexivity|split; [reflexivity|]]].
  - split; [reflexivity|]. split; [reflexivity|]. split; [reflexivity|].
    split; [now apply Instance_destruct_null|].
    intro Hlive. rewrite Instance_destruct_counts.
    apply Z.eqb_neq in Hlive. rewrite Hlive, Z.eqb_refl. reflexivity.
  - intros Hthis Hinstance Hdiff. cbv zeta.
    rewrite !Instance_destruct_counts.
    apply Z.eqb_neq in Hthis, Hinstance.
    rewrite Hthis, Hinstance, !Z.eqb_refl. cbn [negb andb].
    assert (Z.eqb (handle instance) (handle this) = false) as ->
        by (apply Z.eqb_neq; congruence).
    assert (Z.eqb (handle this) (handle instance) = false) as ->
        by (now apply Z.eqb_neq).
    lia.
Qed.

(** C6, amended, at two live instances: the handle of the first is
    destroyed once after a move construction, and both handles are
    destroyed once each after a move assignment. *)
Lemma move_exchanges_ownership_witness :
  count_calls (is_destruction_of 5%Z)
              (calls (snd (Instance_destruct
                             (fst (Instance_move_construct first_instance))
                             (fresh_process sample_driver))))
  = 1
  /\ (let p1 := snd (Instance_destruct
                      (snd (Instance_move_assign second_instance
                                                 first_instance))
                      (fresh_process sample_driver)) in
      let p2 := snd (Instance_destruct
                       (fst (Instance_move_assign second_instance
                                                  first_instance))
                       p1) in
      count_calls (is_destruction_of 9%Z) (calls p2) = 1
      /\ count_calls (is_destruction_of 5%Z) (calls p2) = 1).
Proof.
  split.
  - apply (proj2 (proj2 (proj2 (proj2 (proj1
             (move_exchanges_ownership second_instance first_instance
                                       (fresh_process sample_driver))))))).
    discriminate.
  - apply (proj2 (proj2 (proj2
             (move_exchanges_ownership second_instance first_instance
                                       (fresh_process sample_driver)))));
      discriminate.
Defined.

(* ================================================================== *)
(** * The Embree hair style: loading *)

Lemma even_entries (entries : list Z) (n : nat) :
  map (fun i => nth ((0 + i * (sizeof_unsigned * 2)) / sizeof_unsigned)
                    entries 0%Z)
      (seq 0 n)
  = map (fun i => nth (2 * i) entries 0%Z) (seq 0 n).
Proof.
  apply map_ext. intro i. f_equal.
  unfold sizeof_unsigned.
  replace (0 + i * (4 * 2)) with ((2 * i) * 4) by lia.
  now apply Nat.div_mul.
Qed.

(** C1, as the specification has it, fails for odd lengths: [load] on
    an index sequence of three entries returns, with one segment
    registered; it does not fail with [InvalidGeometry]. *)
Lemma load_accepts_odd_index_count :
  List.length (indices odd_strand) = 3
  /\ load odd_strand empty_raytracer <> Thrown InvalidGeometry
  /\ exists loaded g,
       load odd_strand empty_raytracer = Returned loaded
       /\ loaded_geometry loaded = Some g
       /\ segment_count g = 1
       /\ segment_first_vertices g = [0%Z].
Proof.
  split; [reflexivity|]. split; [discriminate|].
  eexists. eexists. repeat split.
Qed.

(** C1, amended.  For every strand geometry, [load] returns and the
    geometry it attaches has one segment per two raw index entries,
    rounded down: the index binding has a stride of two entries and
    [indices.size() / 2] items, segment [i] starting at raw entry
    [2 * i].  So a sequence of length [2N] registers [N] segments, and
    a sequence of length [2N + 1] registers [N] segments as well. *)
Theorem load_registers_half_the_indices :
  forall (hair_style : HairStyle) (raytracer : Raytracer),
  exists loaded g b,
    load hair_style raytracer = Returned loaded
    /\ loaded_geometry loaded = Some g
    /\ index_buffer g = Some b
    /\ byteStride b = 2 * sizeof_unsigned
    /\ segment_count g = List.length (indices hair_style) / 2
    /\ segment_first_vertices g
       = map (fun i => nth (2 * i) (indices hair_style) 0%Z)
             (seq 0 (List.length (indices hair_style) / 2))
    /\ forall N,
         (List.length (indices hair_style) = 2 * N -> segment_count g = N)
         /\ (List.length (indices hair_style) = 2 * N + 1 ->
             segment_count g = N).
Proof.
  intros hair_style raytracer.
  unfold load, rtcAttachGeometry.
  eexists. eexists. eexists.
  split; [reflexivity|].
  split.
  { unfold loaded_geometry. cbn [hair_scene geometry].
    rewrite nth_error_app2, Nat.sub_diag by apply Nat.le_refl. reflexivity. }
  assert (forall data offset stride count front,
             front = [mkRTCBuffer RTC_BUFFER_TYPE_VERTEX 0 RTC_FORMAT_FLOAT4
                        (Vec4Data (create_position_thickness_data hair_style))
                        0 sizeof_vec4
                        (List.length
                           (create_position_thickness_data hair_style));
                      mkRTCBuffer RTC_BUFFER_TYPE_VERTEX_ATTRIBUTE 0
                        RTC_FORMAT_FLOAT3 (Vec3Data (tangents hair_style))
                        0 sizeof_vec3 (List.length (tangents hair_style))] ->
             List.find
               (fun b =>
                  match buffer_type b with
                  | RTC_BUFFER_TYPE_INDEX => true
                  | _ => false
                  end)
               (front ++ [mkRTCBuffer RTC_BUFFER_TYPE_INDEX 0 RTC_FORMAT_UINT
                                      data offset stride count])
             = Some (mkRTCBuffer RTC_BUFFER_TYPE_INDEX 0 RTC_FORMAT_UINT
                                 data offset stride count)) as Hfind.
  { intros data offset stride count front ->. reflexivity. }
  split; [apply (Hfind _ _ _ _ _ eq_refl)|].
  split; [cbn [byteStride]; lia|].
  unfold segment_count, segment_first_vertices, index_buffer.
  cbn [rtcCommitGeometry rtcSetSharedGeometryBuffer
       rtcSetGeometryVertexAttributeCount rtcNewGeometry buffers app].
  cbn [List.find buffer_type itemCount buffer_data byteOffset byteStride].
  unfold get_indices.
  split; [reflexivity|].
  split; [apply even_entries|].
  intro N. split; intro Hlen; rewrite Hlen.
  - rewrite Nat.mul_comm. now apply Nat.div_mul.
  - rewrite Nat.mul_comm, Nat.add_comm.
    rewrite Nat.div_add by discriminate. reflexivity.
Qed.

(** C1, amended, at the strand of three index entries: one segment. *)
Lemma load_registers_half_the_indices_witness :
  exists loaded g,
    load odd_strand empty_raytracer = Returned loaded
    /\ loaded_geometry loaded = Some g
    /\ segment_count g = 1.
Proof.
  destruct (load_registers_half_the_indices odd_strand empty_raytracer)
    as [loaded [g [b [Hload [Hg [_ [_ [_ [_ Hhalf]]]]]]]]].
  exists loaded, g. split; [exact Hload|]. split; [exact Hg|].
  apply (proj2 (Hhalf 1)). reflexivity.
Defined.

(* ================================================================== *)
(** * The Embree hair style: shading *)

(** C8, as the specification has it, fails.  The tangent and the light
    are the single-precision unit vector [(2/3, 2/3, 1/3)], the eye is
    [(0, 0, -1)]; each has length [1.0f].  The cosine comes out above
    one, the value handed to the square root is negative (nothing
    clamps it), the sine is NaN, and so are the specular factor and
    every component of the colour. *)
Lemma kajiya_kay_nan_at_unit_vectors :
  length3 slanted = f1
  /\ length3 shade_eye = f1
  /\ cosTL slanted slanted = S754_finite false 8388609 (-23)
  /\ flt f1 (cosTL slanted slanted) = true
  /\ one_minus_squared (cosTL slanted slanted)
     = S754_finite true 8388608 (-45)
  /\ sinTL slanted slanted = S754_nan
  /\ specular_factor powf_whole f50 slanted slanted shade_eye = S754_nan
  /\ kajiya_kay powf_whole hair_diffuse white f50 slanted slanted shade_eye
     = nan3.
Proof. vm_compute. repeat split. Qed.

(** C8, amended.  The specular factor is the clamp of the power to
    [[0, 1]]: it lies in that interval whenever the power is not NaN.
    The values handed to the square roots are [1 - cos^2], unclamped:
    when the one for the light is negative, every component of the
    colour is NaN; when it is a finite number that is not negative, the
    two colours are finite and not negative and the power is not NaN,
    no component of the colour is negative or NaN. *)
Theorem kajiya_kay_range :
  forall (powf : float -> float -> float) (diffuse specular : vec3)
         (p : float) (tangent light eye : vec3),
    (is_nan (specular_power powf p tangent light eye) = false ->
     fle f0 (specular_factor powf p tangent light eye) = true
     /\ fle (specular_factor powf p tangent light eye) f1 = true)
    /\ (flt (one_minus_squared (cosTL tangent light)) f0 = true ->
        kajiya_kay powf diffuse specular p tangent light eye = nan3)
    /\ (all3 intensity diffuse = true ->
        all3 intensity specular = true ->
        intensity (one_minus_squared (cosTL tangent light)) = true ->
        is_nan (specular_power powf p tangent light eye) = false ->
        all3 not_negative
             (kajiya_kay powf diffuse specular p tangent light eye)
        = true).
Proof.
  intros powf diffuse specular p tangent light eye.
  split; [|split].
  - intro Hp. unfold specular_factor.
    destruct (clamp_unit_range _ Hp) as [H0 [H1 _]]. now split.
  - intro Hneg. unfold kajiya_kay, diffuse_colors, sinTL, add3, scale.
    rewrite (negative_sqrt_nan _ Hneg). cbn [v3x v3y v3z].
    now rewrite !fmul_nan_r, !fadd_nan_l.
  - intros Hd Hs Harg Hp.
    apply all3_intensity in Hd, Hs.
    destruct Hd as [[Hdx Fdx] [[Hdy Fdy] [Hdz Fdz]]].
    destruct Hs as [[Hsx Fsx] [[Hsy Fsy] [Hsz Fsz]]].
    unfold intensity in Harg. apply andb_prop in Harg.
    destruct Harg as [Hfin Hnn].
    pose proof (fsqrt_not_negative _ Hnn) as Hsin.
    pose proof (fsqrt_finite _ Hfin) as Hsinf.
    destruct (clamp_unit_range _ Hp) as [Hf0 [_ Hfinf]].
    unfold all3, kajiya_kay, diffuse_colors, specular_colors, add3, scale,
      specular_factor, sinTL.
    cbn [v3x v3y v3z].
    repeat (apply andb_true_intro; split);
      apply fadd_not_negative; apply fmul_not_negative; assumption.
Qed.

(** C8, amended, at the end-to-end scenario of the specification:
    tangent [(0, 0, 1)], light [(0, 1, 0)], eye [(0, 0, -1)]. *)
Lemma kajiya_kay_range_witness :
  (fle f0 (specular_factor powf_whole f50 axis_z axis_y shade_eye) = true
   /\ fle (specular_factor powf_whole f50 axis_z axis_y shade_eye) f1 = true)
  /\ kajiya_kay powf_whole hair_diffuse white f50 slanted slanted shade_eye
     = nan3
  /\ all3 not_negative
          (kajiya_kay powf_whole hair_diffuse white f50 axis_z axis_y
                      shade_eye)
     = true.
Proof.
  split; [|split].
  - apply (proj1 (kajiya_kay_range powf_whole hair_diffuse white f50
                                   axis_z axis_y shade_eye)).
    reflexivity.
  - apply (proj1 (proj2 (kajiya_kay_range powf_whole hair_diffuse white f50
                                          slanted slanted shade_eye))).
    reflexivity.
  - apply (proj2 (proj2 (kajiya_kay_range powf_whole hair_diffuse white f50
                                          axis_z axis_y shade_eye)));
      reflexivity.
Defined.

(** C9.  When the tangent is parallel to the light and to the eye, so
    that both cosines are one, the sine for the light is zero, the
    diffuse term is zero in every component, the specular factor is
    one, the top of its range, the specular term is the light intensity
    itself, and the colour returned equals the light intensity.  The
    colours are finite numbers, and the C library's power function
    returns one for the base one, as its standard requires. *)
Theorem kajiya_kay_parallel :
  forall (powf : float -> float -> float) (diffuse specular : vec3)
         (p : float) (tangent light eye : vec3),
    (forall q, powf f1 q = f1) ->
    all3 is_finite diffuse = true ->
    all3 is_finite specular = true ->
    cosTL tangent light = f1 ->
    cosTE tangent eye = f1 ->
    sinTL tangent light = f0
    /\ all3 is_zero (diffuse_colors diffuse tangent light) = true
    /\ specular_factor powf p tangent light eye = f1
    /\ specular_colors powf specular p tangent light eye = specular
    /\ feq3 (kajiya_kay powf diffuse specular p tangent light eye) specular
       = true.
Proof.
  intros powf diffuse specular p tangent light eye Hpow Hd Hs HTL HTE.
  assert (sinTL tangent light = f0) as HsinTL
      by (unfold sinTL; rewrite HTL; reflexivity).
  assert (sinTE tangent eye = f0) as HsinTE
      by (unfold sinTE; rewrite HTE; reflexivity).
  assert (specular_factor powf p tangent light eye = f1) as Hfactor.
  { unfold specular_factor, specular_power.
    rewrite HTL, HTE, HsinTL, HsinTE.
    change (fadd (fmul f1 f1) (fmul f0 f0)) with f1.
    rewrite Hpow. reflexivity. }
  unfold all3 in Hd, Hs.
  apply andb_prop in Hd. destruct Hd as [Hd Hdz].
  apply andb_prop in Hd. destruct Hd as [Hdx Hdy].
  apply andb_prop in Hs. destruct Hs as [Hs Hsz].
  apply andb_prop in Hs. destruct Hs as [Hsx Hsy].
  assert (specular_colors powf specular p tangent light eye = specular)
    as Hspecular.
  { unfold specular_colors, scale. rewrite Hfactor.
    rewrite !fmul_one by assumption. now destruct specular. }
  split; [exact HsinTL|].
  split.
  { unfold all3, diffuse_colors, scale. rewrite HsinTL. cbn [v3x v3y v3z].
    now rewrite !fmul_zero_r by assumption. }
  split; [exact Hfactor|].
  split; [exact Hspecular|].
  unfold kajiya_kay. rewrite Hspecular.
  unfold feq3, add3, diffuse_colors, scale. rewrite HsinTL.
  cbn [v3x v3y v3z].
  rewrite !fadd_zero_l; try assumption; try reflexivity;
    now apply fmul_zero_r.
Qed.

(** C9 with tangent, light and eye all [(0, 0, -1)], the hair colour
    of [shade] and a white light. *)
Lemma kajiya_kay_parallel_witness :
  feq3 (kajiya_kay powf_whole hair_diffuse white f50 shade_eye shade_eye
                   shade_eye)
       white
  = true.
Proof.
  apply (kajiya_kay_parallel powf_whole hair_diffuse white f50
                             shade_eye shade_eye shade_eye).
  - intro q. reflexivity.
  - reflexivity.
  - reflexivity.
  - reflexivity.
  - reflexivity.
Defined.

(* ================================================================== *)
(** * More on the capability search *)

Section FindAlgebra.
Context {T : Type} `{Capability T}.

Lemma absent_from_app (front back : list T) (r : T) :
  absent_from (front ++ back) r = absent_from front r && absent_from back r.
Proof.
  unfold absent_from. rewrite existsb_app. apply negb_orb.
Qed.

Lemma filter_filter_and (keep other : T -> bool) (l : list T) :
  filter keep (filter other l) = filter (fun u => other u && keep u) l.
Proof.
  induction l as [|u l IH]; simpl; [reflexivity|].
  destruct (other u); simpl; [|exact IH].
  destruct (keep u); now rewrite IH.
Qed.

End FindAlgebra.

(** X1.  The edges of [find]: nothing requested gives nothing missing;
    nothing available gives the request back unchanged; and the result
    is never longer than the request. *)
Theorem find_edges :
  forall (T : Type) (C : Capability T) (requested available : list T),
    find (@nil T) available = []
    /\ find requested [] = requested
    /\ List.length (find requested available) <= List.length requested.
Proof.
  intros T C requested available. split; [reflexivity|]. split.
  - rewrite find_filter. induction requested as [|r rest IH]; simpl;
      [reflexivity|now rewrite IH].
  - rewrite find_filter. apply filter_length_le.
Qed.

(** X2.  [find] composes: searching a concatenated available list is
    searching the first part and then searching the second part for
    what was still missing; searching again against the same list
    changes nothing; and a concatenated request is searched piece by
    piece. *)
Theorem find_composes :
  forall (T : Type) (C : Capability T)
         (requested more available later : list T),
    find requested (available ++ later)
    = find (find requested available) later
    /\ find (find requested available) available = find requested available
    /\ find (requested ++ more) available
       = find requested available ++ find more available.
Proof.
  intros T C requested more available later. rewrite !find_filter.
  split; [|split].
  - rewrite filter_filter_and. apply filter_ext. intro r.
    apply absent_from_app.
  - rewrite filter_filter_and. apply filter_ext. intro r.
    now destruct (absent_from available r).
  - apply filter_app.
Qed.

(** X3.  A capability that is requested and available is never
    reported, whatever else is requested: the result of [find] holds no
    entry that has an available namesake, and making more available
    can only shrink it. *)
Theorem find_reports_no_available :
  forall (T : Type) (C : Capability T)
         (requested available later : list T) (r a : T),
    (In r (find requested available) -> In a available ->
     name a <> name r)
    /\ (In r (find requested (available ++ later)) ->
        In r (find requested available)).
Proof.
  intros T C requested available later r a. split.
  - intros Hr Ha. apply find_In in Hr. now apply (proj2 Hr).
  - intro Hr. apply find_In in Hr. apply find_In.
    destruct Hr as [Hin Hall]. split; [assumption|].
    intros b Hb. apply Hall. apply in_or_app. now left.
Qed.

(** X3 at a request of two layers of which one is available. *)
Lemma find_reports_no_available_witness :
  name layer_b <> name layer_a.
Proof.
  apply (proj1 (find_reports_no_available
                  Layer_Capability [layer_a; layer_b] [layer_b] []
                  layer_a layer_b)).
  - simpl. now left.
  - now left.
Defined.


(* ================================================================== *)
(** * More on the static caches *)







Lemma layer_calls_settle (n : nat) (p : Process) :
  available_layers p <> [] ->
  process_after n get_available_layers p = p.
Proof.
  intro Hne. induction n as [|n IH]; [reflexivity|].
  cbn [process_after].
  rewrite (get_available_layers_cached p Hne). exact IH.
Qed.

Lemma extension_calls_settle (n : nat) (p : Process) :
  available_extensions p <> [] ->
  process_after n get_available_extensions p = p.
Proof.
  intro Hne. induction n as [|n IH]; [reflexivity|].
  cbn [process_after].
  rewrite (get_available_extensions_cached p Hne). exact IH.
Qed.

Lemma count_calls_app (which : DriverCall -> bool)
      (front back : list DriverCall) :
  count_calls which (front ++ back)
  = count_calls which front + count_calls which back.
Proof. unfold count_calls. now rewrite filter_app, length_app. Qed.

(** X6.  When the driver reports at least one layer, the layers are
    enumerated once for the whole process: the first call of
    [get_available_layers] makes the two driver calls of one
    enumeration, and however many calls follow, the process state,
    cache and trace included, stays as the first call left it.  The
    same holds for the extensions. *)
Theorem enumerated_once_when_reported :
  forall (n : nat) (p : Process),
    (available_layers p = [] ->
     driver_layers (driver p) <> [] ->
     process_after (S n) get_available_layers p = after_layers p
     /\ count_calls is_layer_enumeration
                    (calls (process_after (S n) get_available_layers p))
        = count_calls is_layer_enumeration (calls p) + 2)
    /\ (available_extensions p = [] ->
        driver_extensions (driver p) <> [] ->
        process_after (S n) get_available_extensions p
        = snd (get_available_extensions p)
        /\ count_calls is_extension_enumeration
                       (calls (process_after (S n) get_available_extensions
                                             p))
           = count_calls is_extension_enumeration (calls p) + 2).
Proof.
  intros n p. split; intros Hempty Hdriver; cbn [process_after].
  - fold (after_layers p).
    assert (available_layers (after_layers p) <> []) as Hne.
    { unfold after_layers. rewrite (get_available_layers_empty p Hempty).
      cbn [snd available_layers].
      destruct (driver_layers (driver p)); [congruence|discriminate]. }
    rewrite (@layer_calls_settle n _ Hne). split; [reflexivity|].
    unfold after_layers. rewrite (get_available_layers_empty p Hempty).
    cbn [snd calls]. now rewrite count_calls_app.
  - assert (available_extensions (snd (get_available_extensions p)) <> [])
      as Hne.
    { rewrite (get_available_extensions_empty p Hempty).
      cbn [snd available_extensions].
      destruct (driver_extensions (driver p)); [congruence|discriminate]. }
    rewrite (@extension_calls_settle n _ Hne). split; [reflexivity|].
    rewrite (get_available_extensions_empty p Hempty).
    cbn [snd calls]. now rewrite count_calls_app.
Qed.

(** X6 on the sample driver, five calls each. *)
Lemma enumerated_once_when_reported_witness :
  count_calls is_layer_enumeration
              (calls (process_after 5 get_available_layers
                                    (fresh_process sample_driver)))
  = 2
  /\ count_calls is_extension_enumeration
                 (calls (process_after 5 get_available_extensions
                                       (fresh_process sample_driver)))
     = 2.
Proof.
  split.
  - apply (proj1 (enumerated_once_when_reported
                    4 (fresh_process sample_driver)));
      [reflexivity|discriminate].
  - apply (proj2 (enumerated_once_when_reported
                    4 (fresh_process sample_driver)));
      [reflexivity|discriminate].
Defined.

(** X7.  The two caches are kept apart: [get_available_layers] leaves
    the extension cache and the driver as they are and makes no
    extension enumeration, and [get_available_extensions] leaves the
    layer cache and the driver as they are and makes no layer
    enumeration; neither removes a call from the trace. *)
Theorem caches_are_separate :
  forall (p : Process),
    (driver (snd (get_available_layers p)) = driver p
     /\ available_extensions (snd (get_available_layers p))
        = available_extensions p
     /\ count_calls is_extension_enumeration
                    (calls (snd (get_available_layers p)))
        = count_calls is_extension_enumeration (calls p)
     /\ firstn (List.length (calls p)) (calls (snd (get_available_layers p)))
        = calls p)
    /\ (driver (snd (get_available_extensions p)) = driver p
        /\ available_layers (snd (get_available_extensions p))
           = available_layers p
        /\ count_calls is_layer_enumeration
                       (calls (snd (get_available_extensions p)))
           = count_calls is_layer_enumeration (calls p)
        /\ firstn (List.length (calls p))
                  (calls (snd (get_available_extensions p)))
           = calls p).
Proof.
  intro p. split.
  - fold (after_layers p).
    destruct (after_layers_frame p) as [Hd [Hx [_ [queries [Hc [Hq _]]]]]].
    split; [exact Hd|]. split; [exact Hx|]. rewrite Hc. split.
    + rewrite count_calls_app.
      assert (count_calls is_extension_enumeration queries = 0) as ->; [|lia].
      clear Hc. unfold count_calls.
      induction Hq as [|c queries Hc Hq IH]; [reflexivity|].
      simpl. destruct c; try discriminate. exact IH.
    + rewrite firstn_app, Nat.sub_diag, firstn_all. simpl.
      now rewrite app_nil_r.
  - destruct (after_extensions_frame p)
      as [Hd [Hl [_ [queries [Hc [Hq _]]]]]].
    split; [exact Hd|]. split; [exact Hl|]. rewrite Hc. split.
    + rewrite count_calls_app.
      assert (count_calls is_layer_enumeration queries = 0) as ->; [|lia].
      clear Hc. unfold count_calls.
      induction Hq as [|c queries Hc Hq IH]; [reflexivity|].
      simpl. destruct c; try discriminate. exact IH.
    + rewrite firstn_app, Nat.sub_diag, firstn_all. simpl.
      now rewrite app_nil_r.
Qed.

(* ================================================================== *)
(** * More on construction and destruction *)

Lemma after_extensions_state (p : Process) :
  after_extensions p
  = mkProcess (driver p) (known_layers p) (known_extensions p)
              (calls p ++ enumeration_calls p).
Proof.
  unfold after_extensions, after_layers, enumeration_calls,
    known_layers, known_extensions.
  destruct p as [d ls xs cs]. cbn [driver available_layers
                                   available_extensions calls].
  destruct ls as [|l ls].
  - rewrite get_available_layers_empty by reflexivity.
    cbn [snd driver available_layers available_extensions calls].
    destruct xs as [|x xs].
    + rewrite get_available_extensions_empty by reflexivity.
      cbn [snd driver available_layers available_extensions calls].
      now rewrite <- app_assoc.
    + rewrite get_available_extensions_cached by discriminate.
      cbn [snd]. now rewrite app_nil_r.
  - rewrite get_available_layers_cached by discriminate. cbn [snd].
    destruct xs as [|x xs].
    + rewrite get_available_extensions_empty by reflexivity.
      reflexivity.
    + rewrite get_available_extensions_cached by discriminate.
      cbn [snd]. now rewrite !app_nil_r.
Qed.

Lemma after_layers_state (p : Process) :
  exists queries,
    after_layers p
    = mkProcess (driver p) (known_layers p) (available_extensions p)
                (calls p ++ queries)
    /\ Forall (fun c => is_layer_enumeration c = true) queries
    /\ List.length queries <= 2.
Proof.
  unfold after_layers, known_layers.
  destruct p as [d ls xs cs]. cbn [driver available_layers
                                   available_extensions calls].
  destruct ls as [|l ls].
  - rewrite get_available_layers_empty by reflexivity.
    eexists. split; [reflexivity|]. split; [repeat constructor|simpl; lia].
  - rewrite get_available_layers_cached by discriminate.
    exists []. rewrite app_nil_r.
    split; [reflexivity|]. split; [constructor|simpl; lia].
Qed.

Lemma enumeration_calls_facts (p : Process) :
  Forall (fun c => is_enumeration c = true) (enumeration_calls p)
  /\ List.length (enumeration_calls p) <= 4.
Proof.
  unfold enumeration_calls.
  destruct (available_layers p), (available_extensions p);
    split; simpl; try lia; repeat constructor.
Qed.

Lemma find_nil_all_available {T} `{Capability T}
      (required available : list T) :
  find required available = [] <-> all_available required available.
Proof. apply find_nil. Qed.

(** X8.  The constructor returns an instance exactly when every
    required layer and every required extension has an available
    namesake and the driver accepts the create info, which carries the
    application and the required names in the order given. *)
Theorem construction_succeeds_iff :
  forall (application : Application) (required_layers : list Layer)
         (required_extensions : list Extension) (debug_callback : Callback)
         (p : Process),
    (exists instance p',
        Instance_construct application required_layers required_extensions
                           debug_callback p
        = (Returned instance, p'))
    <-> all_available required_layers (known_layers p)
        /\ all_available required_extensions (known_extensions p)
        /\ driver_create_instance
             (driver p)
             (mkVkInstanceCreateInfo
                application
                (to_uint32 (List.length required_layers))
                (map name required_layers)
                (to_uint32 (List.length required_extensions))
                (map name required_extensions))
           = VK_SUCCESS.
Proof.
  intros application required_layers required_extensions debug_callback p.
  rewrite <- !find_nil_all_available.
  rewrite Instance_construct_run.
  fold (create_info_of application required_layers required_extensions).
  destruct (find required_layers (known_layers p)) as [|ml mls].
  - destruct (find required_extensions (known_extensions p)) as [|mx mxs].
    + cbv zeta.
      destruct (Z.eqb_spec
                  (driver_create_instance
                     (driver p)
                     (create_info_of application required_layers
                                     required_extensions))
                  VK_SUCCESS) as [Hok|Hbad].
      * split; [intros _; now repeat split|intros _].
        destruct (_ && _); eexists; eexists; reflexivity.
      * split; [intros [i [p' Hrun]]; discriminate|].
        intros [_ [_ Hok]]. contradiction.
    + split; [intros [i [p' Hrun]]; discriminate|].
      intros [_ [Hx _]]. discriminate.
  - split; [intros [i [p' Hrun]]; discriminate|].
    intros [Hl _]. discriminate.
Qed.

Lemma construction_result_facts (application : Application)
      (required_layers : list Layer) (required_extensions : list Extension)
      (debug_callback : Callback) (p p' : Process) (instance : Instance) :
  Instance_construct application required_layers required_extensions
                     debug_callback p
  = (Returned instance, p') ->
  application_info instance = application
  /\ enabled_layers instance = required_layers
  /\ enabled_extensions instance = required_extensions
  /\ handle instance <> VK_NULL_HANDLE
  /\ (has_messenger instance = true ->
      messenger_instance (debug_utils_messenger instance) = handle instance
      /\ messenger_callback (debug_utils_messenger instance)
         = debug_callback)
  /\ available_layers p' = known_layers p
  /\ available_extensions p' = known_extensions p
  /\ calls p'
     = calls p ++ enumeration_calls p
       ++ CreateInstance VK_SUCCESS (handle instance)
       :: (if has_messenger instance
           then [CreateDebugUtilsMessenger
                   (handle instance)
                   (messenger_handle (debug_utils_messenger instance))]
           else []).
Proof.
  intro Hrun.
  rewrite Instance_construct_run, after_extensions_state in Hrun.
  destruct (find required_layers (known_layers p)); [|discriminate].
  destruct (find required_extensions (known_extensions p)); [|discriminate].
  cbv zeta in Hrun.
  destruct (Z.eqb_spec
              (driver_create_instance
                 (driver p)
                 (create_info_of application required_layers
                                 required_extensions))
              VK_SUCCESS) as [Hok|Hbad]; [|discriminate].
  rewrite Hok in Hrun.
  assert (forall q, Z.eqb (fresh_handle q) VK_NULL_HANDLE = false) as Hfresh.
  { intro q. apply Z.eqb_neq. unfold fresh_handle, VK_NULL_HANDLE. lia. }
  destruct (_ && _); injection Hrun as Hi Hp; subst instance p';
    unfold has_messenger, record_call;
    cbn [application_info enabled_layers enabled_extensions handle
         debug_utils_messenger messenger_handle messenger_instance
         messenger_callback default_DebugMessenger
         driver available_layers available_extensions calls].
  - rewrite Hfresh. cbn [negb].
    do 3 (split; [reflexivity|]).
    split; [apply Z.eqb_neq, Hfresh|].
    split; [intros _; now split|].
    do 2 (split; [reflexivity|]).
    now rewrite <- !app_assoc.
  - change (Z.eqb VK_NULL_HANDLE VK_NULL_HANDLE) with true. cbn [negb].
    do 3 (split; [reflexivity|]).
    split; [apply Z.eqb_neq, Hfresh|].
    split; [discriminate|].
    do 2 (split; [reflexivity|]).
    now rewrite <- !app_assoc.
Qed.

(** X9.  What a successful construction leaves behind: the instance
    stores the application, the layers and the extensions it was given
    and a handle that is not null; a messenger it holds belongs to
    that handle; both caches hold what the checks saw; and the trace
    has grown by the enumerations, one accepted [vkCreateInstance] that
    returned the handle, and the creation of the messenger if there is
    one. *)
Theorem construction_result :
  forall (application : Application) (required_layers : list Layer)
         (required_extensions : list Extension) (debug_callback : Callback)
         (p p' : Process) (instance : Instance),
    Instance_construct application required_layers required_extensions
                       debug_callback p
    = (Returned instance, p') ->
    get_application instance = application
    /\ get_enabled_layers instance = required_layers
    /\ get_enabled_extensions instance = required_extensions
    /\ get_handle instance <> VK_NULL_HANDLE
    /\ (has_messenger instance = true ->
        messenger_instance (get_debug_messenger instance)
        = get_handle instance
        /\ messenger_callback (get_debug_messenger instance)
           = debug_callback)
    /\ available_layers p' = known_layers p
    /\ available_extensions p' = known_extensions p
    /\ calls p'
       = calls p ++ enumeration_calls p
         ++ CreateInstance VK_SUCCESS (get_handle instance)
         :: (if has_messenger instance
             then [CreateDebugUtilsMessenger
                     (get_handle instance)
                     (messenger_handle (get_debug_messenger instance))]
             else []).
Proof.
  intros application required_layers required_extensions debug_callback
         p p' instance Hrun.
  unfold get_application, get_enabled_layers, get_enabled_extensions,
    get_handle, get_debug_messenger.
  exact (@construction_result_facts _ _ _ _ _ _ _ Hrun).
Qed.

(** X9 at a request for the validation layer and the debug-utilities
    extension on the sample driver. *)
Lemma construction_result_witness :
  get_handle
    (mkInstance sample_application [validation_layer] [debug_utils]
                5%Z (mkDebugMessenger 5%Z 6%Z 7%Z))
  <> VK_NULL_HANDLE.
Proof.
  apply (@construction_result
           sample_application [validation_layer] [debug_utils] 7%Z
           (fresh_process sample_driver)
           (record_call
              (record_call
                 (after_extensions (fresh_process sample_driver))
                 (CreateInstance VK_SUCCESS 5%Z))
              (CreateDebugUtilsMessenger 5%Z 6%Z))
           (mkInstance sample_application [validation_layer] [debug_utils]
                       5%Z (mkDebugMessenger 5%Z 6%Z 7%Z))
           eq_refl).
Defined.

(** X10.  When the driver refuses the instance, the constructor throws
    the exception made from the driver's result and the fixed message:
    every required capability was available, the refused
    [vkCreateInstance] is the last driver call, no messenger has been
    created, and both caches hold what the checks saw. *)
Theorem construction_refused_by_driver :
  forall (application : Application) (required_layers : list Layer)
         (required_extensions : list Extension) (debug_callback : Callback)
         (p p' : Process) (error : VkResult) (what : string),
    Instance_construct application required_layers required_extensions
                       debug_callback p
    = (Thrown (Exception_result error what), p') ->
    error <> VK_SUCCESS
    /\ error = driver_create_instance
                 (driver p)
                 (create_info_of application required_layers
                                 required_extensions)
    /\ what = "couldn't create instance!"
    /\ all_available required_layers (known_layers p)
    /\ all_available required_extensions (known_extensions p)
    /\ available_layers p' = known_layers p
    /\ available_extensions p' = known_extensions p
    /\ calls p'
       = calls p ++ enumeration_calls p
         ++ [CreateInstance error VK_NULL_HANDLE].
Proof.
  intros application required_layers required_extensions debug_callback
         p p' error what Hrun.
  rewrite <- !find_nil_all_available.
  rewrite Instance_construct_run, after_extensions_state in Hrun.
  destruct (find required_layers (known_layers p)); [|discriminate].
  destruct (find required_extensions (known_extensions p)); [|discriminate].
  cbv zeta in Hrun.
  destruct (Z.eqb_spec
              (driver_create_instance
                 (driver p)
                 (create_info_of application required_layers
                                 required_extensions))
              VK_SUCCESS) as [Hok|Hbad].
  - destruct (_ && _); discriminate.
  - injection Hrun as He Hw Hp. subst error what p'.
    unfold record_call.
    cbn [driver available_layers available_extensions calls].
    repeat split; try assumption. now rewrite <- app_assoc.
Qed.

(** X10 on a driver that refuses every instance. *)
Lemma construction_refused_by_driver_witness :
  (-9)%Z <> VK_SUCCESS.
Proof.
  apply (@construction_refused_by_driver
           sample_application [] [] 0%Z
           (fresh_process (mkDriver [] [] (fun _ => (-9)%Z)))
           (record_call
              (after_extensions
                 (fresh_process (mkDriver [] [] (fun _ => (-9)%Z))))
              (CreateInstance (-9)%Z VK_NULL_HANDLE))
           (-9)%Z "couldn't create instance!" eq_refl).
Defined.

Lemma Instance_construct_calls (application : Application)
      (required_layers : list Layer) (required_extensions : list Extension)
      (debug_callback : Callback) (p : Process) :
  exists queries created,
    calls (snd (Instance_construct application required_layers
                                   required_extensions debug_callback p))
    = calls p ++ queries ++ created
    /\ Forall (fun c => is_enumeration c = true) queries
    /\ List.length queries <= 4
    /\ (available_layers p <> [] -> available_extensions p <> [] ->
        queries = [])
    /\ (created = []
        \/ (exists error h, created = [CreateInstance error h])
        \/ (exists h m,
               created = [CreateInstance VK_SUCCESS h;
                          CreateDebugUtilsMessenger h m])).
Proof.
  rewrite Instance_construct_run.
  destruct (find required_layers (known_layers p)).
  - rewrite after_extensions_state.
    destruct (enumeration_calls_facts p) as [Hq Hlen].
    assert (available_layers p <> [] -> available_extensions p <> [] ->
            enumeration_calls p = []) as Hnone.
    { unfold enumeration_calls.
      destruct (available_layers p), (available_extensions p);
        intros H1 H2; try reflexivity;
        try (now destruct H1); now destruct H2. }
    exists (enumeration_calls p).
    destruct (find required_extensions (known_extensions p)).
    + cbv zeta.
      destruct (Z.eqb_spec
                  (driver_create_instance
                     (driver p)
                     (create_info_of application required_layers
                                     required_extensions))
                  VK_SUCCESS) as [Hok|Hbad].
      * rewrite Hok.
        destruct (_ && _); unfold record_call;
          cbn [snd driver available_layers available_extensions calls].
        -- eexists. split; [rewrite <- !app_assoc; reflexivity|].
           repeat split; try assumption.
           right. right. eexists. eexists. reflexivity.
        -- eexists. split; [rewrite <- !app_assoc; reflexivity|].
           repeat split; try assumption.
           right. left. eexists. eexists. reflexivity.
      * unfold record_call.
        cbn [snd driver available_layers available_extensions calls].
        eexists. split; [rewrite <- !app_assoc; reflexivity|].
        repeat split; try assumption.
        right. left. eexists. eexists. reflexivity.
    + cbn [snd calls]. exists [].
      rewrite app_nil_r. repeat split; try assumption. now left.
  - cbn [snd].
    destruct (after_layers_state p) as [queries [Hs [Hq Hlen]]].
    destruct (after_layers_frame p) as [_ [_ [_ [queries' [Hc [_ Hnone]]]]]].
    rewrite Hs in Hc. cbn [calls] in Hc.
    apply app_inv_head in Hc. subst queries'.
    rewrite Hs. cbn [calls]. exists queries, [].
    rewrite app_nil_r. split; [reflexivity|].
    split.
    { eapply Forall_impl; [|exact Hq]. intros c Hc. now destruct c. }
    split; [lia|]. split; [intros H1 _; now apply Hnone|now left].
Qed.

(** X11.  Whatever its outcome, the constructor only adds to the
    trace, and what it adds is bounded: at most four enumeration calls,
    at most one [vkCreateInstance], at most one messenger creation, and
    never a destruction. *)
Theorem construction_call_budget :
  forall (application : Application) (required_layers : list Layer)
         (required_extensions : list Extension) (debug_callback : Callback)
         (p : Process),
  exists added,
    calls (snd (Instance_construct application required_layers
                                   required_extensions debug_callback p))
    = calls p ++ added
    /\ count_calls is_enumeration added <= 4
    /\ count_calls is_instance_creation added <= 1
    /\ count_calls is_messenger_creation added <= 1
    /\ count_calls is_destruction added = 0.
Proof.
  intros application required_layers required_extensions debug_callback p.
  destruct (Instance_construct_calls application required_layers
                                     required_extensions debug_callback p)
    as [queries [created [Hc [Hq [Hlen [_ Hcreated]]]]]].
  exists (queries ++ created). split; [exact Hc|].
  rewrite !count_calls_app.
  assert (count_calls is_enumeration queries <= 4
          /\ count_calls is_instance_creation queries = 0
          /\ count_calls is_messenger_creation queries = 0
          /\ count_calls is_destruction queries = 0) as [Q1 [Q2 [Q3 Q4]]].
  { unfold count_calls. split.
    - pose proof (filter_length_le is_enumeration queries). lia.
    - clear Hc Hlen. induction Hq as [|c queries Hc Hq IH];
        [repeat split|].
      destruct c; try discriminate; simpl; exact IH. }
  rewrite Q2, Q3, Q4.
  destruct Hcreated as [->|[[error [h ->]]|[h [m ->]]]];
    unfold count_calls in *; simpl; lia.
Qed.

(** X12.  A constructed instance that is destroyed takes down what
    its construction brought up, the messenger before the instance:
    after the destructor the trace is the old trace, the enumerations,
    and then the creation of the instance, the creation and the
    destruction of its messenger if it has one, and the destruction of
    the instance. *)
Theorem construction_then_destruction :
  forall (application : Application) (required_layers : list Layer)
         (required_extensions : list Extension) (debug_callback : Callback)
         (p p' : Process) (instance : Instance),
    Instance_construct application required_layers required_extensions
                       debug_callback p
    = (Returned instance, p') ->
    fst (Instance_destruct instance p') = Returned tt
    /\ calls (snd (Instance_destruct instance p'))
       = calls p ++ enumeration_calls p ++ lifetime_calls instance.
Proof.
  intros application required_layers required_extensions debug_callback
         p p' instance Hrun.
  destruct (@construction_result_facts _ _ _ _ _ _ _ Hrun)
    as [_ [_ [_ [Hh [Hm [_ [_ Hc]]]]]]].
  apply Z.eqb_neq in Hh.
  unfold Instance_destruct, DebugMessenger_destroy, lifetime_calls.
  unfold has_messenger in *.
  destruct (Z.eqb (messenger_handle (debug_utils_messenger instance))
                  VK_NULL_HANDLE) eqn:Em; cbn [negb] in *.
  - unfold bind, ret. rewrite Hh. cbn [negb].
    unfold driver_call, record_call. cbn [fst snd calls].
    split; [reflexivity|]. rewrite Hc, <- !app_assoc. reflexivity.
  - destruct (Hm eq_refl) as [Hparent _]. rewrite Hparent.
    unfold bind, driver_call, ret. rewrite Hh. cbn [negb].
    unfold record_call. cbn [fst snd calls].
    split; [reflexivity|]. rewrite Hc, <- !app_assoc. reflexivity.
Qed.

(** X12 at an instance with a messenger on the sample driver. *)
Lemma construction_then_destruction_witness :
  calls (snd (Instance_destruct
                (mkInstance sample_application [validation_layer]
                            [debug_utils] 5%Z
                            (mkDebugMessenger 5%Z 6%Z 7%Z))
                (record_call
                   (record_call
                      (after_extensions (fresh_process sample_driver))
                      (CreateInstance VK_SUCCESS 5%Z))
                   (CreateDebugUtilsMessenger 5%Z 6%Z))))
  = [EnumerateInstanceLayerProperties; EnumerateInstanceLayerProperties;
     EnumerateInstanceExtensionProperties;
     EnumerateInstanceExtensionProperties;
     CreateInstance VK_SUCCESS 5%Z;
     CreateDebugUtilsMessenger 5%Z 6%Z;
     DestroyDebugUtilsMessenger 5%Z 6%Z;
     DestroyInstance 5%Z].
Proof.
  apply (proj2 (@construction_then_destruction
                  sample_application [validation_layer] [debug_utils] 7%Z
                  (fresh_process sample_driver)
                  (record_call
                     (record_call
                        (after_extensions (fresh_process sample_driver))
                        (CreateInstance VK_SUCCESS 5%Z))
                     (CreateDebugUtilsMessenger 5%Z 6%Z))
                  (mkInstance sample_application [validation_layer]
                              [debug_utils] 5%Z
                              (mkDebugMessenger 5%Z 6%Z 7%Z))
                  eq_refl)).
Defined.






(** X14.  Once an instance has been constructed in a process whose
    driver reports at least one layer and one extension, no later
    construction enumerates again, whatever it asks for and however it
    ends. *)
Theorem later_constructions_do_not_enumerate :
  forall (application : Application) (required_layers : list Layer)
         (required_extensions : list Extension) (debug_callback : Callback)
         (later_application : Application) (later_layers : list Layer)
         (later_extensions : list Extension) (later_callback : Callback)
         (p p' : Process) (instance : Instance),
    known_layers p <> [] ->
    known_extensions p <> [] ->
    Instance_construct application required_layers required_extensions
                       debug_callback p
    = (Returned instance, p') ->
    count_calls is_enumeration
                (calls (snd (Instance_construct
                               later_application later_layers
                               later_extensions later_callback p')))
    = count_calls is_enumeration (calls p').
Proof.
  intros application required_layers required_extensions debug_callback
         later_application later_layers later_extensions later_callback
         p p' instance Hl Hx Hrun.
  assert (available_layers p' = known_layers p
          /\ available_extensions p' = known_extensions p) as [Hal Hax].
  { rewrite Instance_construct_run, after_extensions_state in Hrun.
    destruct (find required_layers (known_layers p)); [|discriminate].
    destruct (find required_extensions (known_extensions p));
      [|discriminate].
    cbv zeta in Hrun.
    destruct (Z.eqb _ VK_SUCCESS); [|discriminate].
    destruct (_ && _); injection Hrun as _ Hp; subst p'; now split. }
  destruct (Instance_construct_calls later_application later_layers
                                     later_extensions later_callback p')
    as [queries [created [Hc [_ [_ [Hnone Hcreated]]]]]].
  rewrite Hc, (Hnone ltac:(congruence) ltac:(congruence)).
  rewrite !count_calls_app.
  destruct Hcreated as [->|[[error [h ->]]|[h [m ->]]]];
    unfold count_calls; simpl; lia.
Qed.

(** X14 on the sample driver: a second construction after a first. *)
Lemma later_constructions_do_not_enumerate_witness :
  count_calls is_enumeration
              (calls (snd (Instance_construct
                             sample_application [missing_layer] [] 0%Z
                             (record_call
                                (after_extensions
                                   (fresh_process sample_driver))
                                (CreateInstance VK_SUCCESS 5%Z)))))
  = 4.
Proof.
  rewrite (@later_constructions_do_not_enumerate
             sample_application [] [] 0%Z
             sample_application [missing_layer] [] 0%Z
             (fresh_process sample_driver)
             (record_call (after_extensions (fresh_process sample_driver))
                          (CreateInstance VK_SUCCESS 5%Z))
             (mkInstance sample_application [] [] 5%Z
                         default_DebugMessenger)).
  - reflexivity.
  - discriminate.
  - discriminate.
  - reflexivity.
Defined.

(* ================================================================== *)
(** * More on moves *)

(** X15.  Moves chain: an instance moved into a second object and from
    there into a third ends up, whole, in the third; both objects it
    passed through are left in the default state; and when all three
    are destroyed a live handle is destroyed exactly once.  Swapping
    twice gives both objects their members back, and an object swapped
    with itself keeps them. *)
Theorem moves_chain :
  forall (instance other : Instance) (p : Process),
    let second := fst (Instance_move_construct instance) in
    let first_left := snd (Instance_move_construct instance) in
    let third := fst (Instance_move_construct second) in
    let second_left := snd (Instance_move_construct second) in
    third = instance
    /\ first_left = default_Instance
    /\ second_left = default_Instance
    /\ (handle instance <> VK_NULL_HANDLE ->
        let p1 := snd (Instance_destruct first_left p) in
        let p2 := snd (Instance_destruct second_left p1) in
        let p3 := snd (Instance_destruct third p2) in
        count_calls (is_destruction_of (handle instance)) (calls p3)
        = count_calls (is_destruction_of (handle instance)) (calls p) + 1)
    /\ swap (fst (swap instance other)) (snd (swap instance other))
       = (instance, other)
    /\ swap instance instance = (instance, instance).
Proof.
  intros instance other p. cbv zeta.
  unfold Instance_move_construct.
  rewrite !swap_exchanges. cbn [fst snd]. rewrite ?swap_exchanges.
  cbn [fst snd].
  do 3 (split; [reflexivity|]).
  split; [|split; reflexivity].
  intro Hlive.
  rewrite !Instance_destruct_counts.
  apply Z.eqb_neq in Hlive. rewrite Hlive, Z.eqb_refl.
  cbn [handle default_Instance].
  change (Z.eqb VK_NULL_HANDLE VK_NULL_HANDLE) with true.
  cbn [negb andb]. rewrite ?Z.eqb_refl. lia.
Qed.

(** X15 at a live instance moved twice. *)
Lemma moves_chain_witness :
  let second := fst (Instance_move_construct first_instance) in
  let first_left := snd (Instance_move_construct first_instance) in
  let third := fst (Instance_move_construct second) in
  let second_left := snd (Instance_move_construct second) in
  let p1 := snd (Instance_destruct first_left
                                   (fresh_process sample_driver)) in
  let p2 := snd (Instance_destruct second_left p1) in
  let p3 := snd (Instance_destruct third p2) in
  count_calls (is_destruction_of 5%Z) (calls p3) = 1.
Proof.
  apply (proj1 (proj2 (proj2 (proj2
           (moves_chain first_instance second_instance
                        (fresh_process sample_driver)))))).
  discriminate.
Defined.

(* ================================================================== *)
(** * More on loading *)

Lemma load_returns (hair_style : HairStyle) (raytracer : Raytracer) :
  load hair_style raytracer
  = Returned (mkEmbreeHairStyle
                (create_position_thickness_data hair_style)
                (scene raytracer ++ [hair_geometry_of hair_style])
                (List.length (scene raytracer))).
Proof. reflexivity. Qed.

Lemma even_positions_read {A} (d : A) (k : nat) (l : list A) :
  2 * k <= List.length l ->
  map (fun i => nth (2 * i) l d) (seq 0 k) = firstn k (even_positions l).
Proof.
  revert l. induction k as [|k IH]; intros l Hlen; [reflexivity|].
  destruct l as [|a [|b rest]]; simpl in Hlen; try lia.
  cbn [seq map even_positions firstn]. f_equal.
  rewrite <- seq_shift, map_map. rewrite <- (IH rest) by lia.
  apply map_ext. intro i.
  replace (2 * S i) with (S (S (2 * i))) by lia. reflexivity.
Qed.

Lemma half_doubled (n : nat) : 2 * (n / 2) <= n.
Proof. apply Nat.Div0.mul_div_le. Qed.

(** X16.  [load] attaches exactly one geometry, at the end of the
    scene: the identifier it stores (and [get_geometry] returns) is the
    number of geometries the scene had, the geometry is found under it,
    every geometry attached before is still found under its own
    identifier, and a second hair style loaded into the resulting scene
    gets the next identifier while the first stays in place. *)
Theorem load_attaches_one_geometry :
  forall (hair_style next_style : HairStyle) (raytracer : Raytracer),
  exists loaded next,
    HairStyle_construct hair_style raytracer = Returned loaded
    /\ get_geometry loaded = List.length (scene raytracer)
    /\ List.length (hair_scene loaded) = S (List.length (scene raytracer))
    /\ loaded_geometry loaded = Some (hair_geometry_of hair_style)
    /\ (forall id g,
           nth_error (scene raytracer) id = Some g ->
           nth_error (hair_scene loaded) id = Some g)
    /\ HairStyle_construct next_style (mkRaytracer (hair_scene loaded))
       = Returned next
    /\ get_geometry next = S (get_geometry loaded)
    /\ loaded_geometry next = Some (hair_geometry_of next_style)
    /\ nth_error (hair_scene next) (get_geometry loaded)
       = Some (hair_geometry_of hair_style).
Proof.
  intros hair_style next_style raytracer.
  unfold HairStyle_construct, get_geometry, loaded_geometry.
  exists (mkEmbreeHairStyle
            (create_position_thickness_data hair_style)
            (scene raytracer ++ [hair_geometry_of hair_style])
            (List.length (scene raytracer))).
  exists (mkEmbreeHairStyle
            (create_position_thickness_data next_style)
            ((scene raytracer ++ [hair_geometry_of hair_style])
             ++ [hair_geometry_of next_style])
            (List.length
               (scene raytracer ++ [hair_geometry_of hair_style]))).
  cbn [geometry hair_scene].
  split; [apply load_returns|].
  split; [reflexivity|].
  split; [rewrite length_app; simpl; lia|].
  split.
  { now rewrite nth_error_app2, Nat.sub_diag by apply Nat.le_refl. }
  split.
  { intros id g Hin. rewrite nth_error_app1; [assumption|].
    apply nth_error_Some. congruence. }
  split; [apply load_returns|].
  split; [rewrite length_app; simpl; lia|].
  split.
  { now rewrite nth_error_app2, Nat.sub_diag by apply Nat.le_refl. }
  rewrite nth_error_app1 by (rewrite length_app; simpl; lia).
  now rewrite nth_error_app2, Nat.sub_diag by apply Nat.le_refl.
Qed.

(** X16 with a geometry already in the scene. *)
Lemma load_attaches_one_geometry_witness :
  exists loaded,
    HairStyle_construct pair_strand
                        (mkRaytracer [hair_geometry_of odd_strand])
    = Returned loaded
    /\ nth_error (hair_scene loaded) 0 = Some (hair_geometry_of odd_strand).
Proof.
  destruct (load_attaches_one_geometry
              pair_strand odd_strand
              (mkRaytracer [hair_geometry_of odd_strand]))
    as [loaded [next [Hload [_ [_ [_ [Hkeep _]]]]]]].
  exists loaded. split; [exact Hload|].
  apply Hkeep. reflexivity.
Defined.

(** X17.  No binding of the loaded geometry reaches past the vector it
    shares: for the vertex, the tangent and the index binding alike,
    the last item Embree may read ends within the bytes of the data
    behind the binding, whatever the lengths of the hair style's
    vectors, an odd index count included. *)
Theorem load_bindings_stay_in_bounds :
  forall (hair_style : HairStyle) (raytracer : Raytracer),
  exists loaded g,
    load hair_style raytracer = Returned loaded
    /\ loaded_geometry loaded = Some g
    /\ committed g = true
    /\ map buffer_type (buffers g)
       = [RTC_BUFFER_TYPE_VERTEX; RTC_BUFFER_TYPE_VERTEX_ATTRIBUTE;
          RTC_BUFFER_TYPE_INDEX]
    /\ Forall (fun b => binding_end b <= data_bytes (buffer_data b))
              (buffers g).
Proof.
  intros hair_style raytracer.
  exists (mkEmbreeHairStyle
            (create_position_thickness_data hair_style)
            (scene raytracer ++ [hair_geometry_of hair_style])
            (List.length (scene raytracer))),
         (hair_geometry_of hair_style).
  split; [apply load_returns|]. split.
  { unfold loaded_geometry. cbn [hair_scene geometry].
    now rewrite nth_error_app2, Nat.sub_diag by apply Nat.le_refl. }
  split; [reflexivity|]. split; [reflexivity|].
  unfold hair_geometry_of. cbn [buffers].
  repeat constructor;
    unfold binding_end, data_bytes, sizeof_vec4, sizeof_vec3,
      sizeof_unsigned;
    cbn [itemCount byteOffset byteStride buffer_format buffer_data
         format_bytes].
  - destruct (List.length (create_position_thickness_data hair_style));
      lia.
  - destruct (List.length (tangents hair_style)); lia.
  - pose proof (half_doubled (List.length (indices hair_style))) as Hhalf.
    destruct (List.length (indices hair_style) / 2); lia.
Qed.

(** X18.  Only the raw index entries at even positions reach Embree:
    the first vertices of the segments are the entries at positions 0,
    2, 4, ... of the index sequence, as many as there are segments, so
    the second entry of every pair is never read, and two hair styles
    whose index sequences have the same length and agree at the even
    positions give the same segments. *)
Theorem load_reads_even_entries_only :
  forall (hair_style other : HairStyle) (raytracer : Raytracer),
    segment_first_vertices (hair_geometry_of hair_style)
    = firstn (List.length (indices hair_style) / 2)
             (even_positions (indices hair_style))
    /\ (List.length (indices hair_style) = List.length (indices other) ->
        even_positions (indices hair_style)
        = even_positions (indices other) ->
        segment_first_vertices (hair_geometry_of hair_style)
        = segment_first_vertices (hair_geometry_of other))
    /\ load hair_style raytracer
       = Returned (mkEmbreeHairStyle
                     (create_position_thickness_data hair_style)
                     (scene raytracer ++ [hair_geometry_of hair_style])
                     (List.length (scene raytracer))).
Proof.
  intros hair_style other raytracer.
  assert (forall hs,
             segment_first_vertices (hair_geometry_of hs)
             = firstn (List.length (indices hs) / 2)
                      (even_positions (indices hs))) as Hread.
  { intro hs.
    unfold segment_first_vertices, index_buffer, hair_geometry_of.
    cbn [buffers List.find buffer_type buffer_data byteOffset byteStride
         itemCount].
    rewrite even_entries. apply even_positions_read. apply half_doubled. }
  split; [apply Hread|]. split; [|apply load_returns].
  intros Hlen Heven. now rewrite !Hread, Hlen, Heven.
Qed.

(** X18 at two index sequences that differ in the second entries of
    their pairs only. *)
Lemma load_reads_even_entries_only_witness :
  segment_first_vertices (hair_geometry_of pair_strand)
  = segment_first_vertices
      (hair_geometry_of
         (mkHairStyle (vertices pair_strand) (thickness pair_strand)
                      (tangents pair_strand) [0%Z; 7%Z; 1%Z; 9%Z])).
Proof.
  apply (proj1 (proj2 (load_reads_even_entries_only
                         pair_strand
                         (mkHairStyle (vertices pair_strand)
                                      (thickness pair_strand)
                                      (tangents pair_strand)
                                      [0%Z; 7%Z; 1%Z; 9%Z])
                         empty_raytracer)));
    reflexivity.
Defined.

(* ================================================================== *)
(** * More on shading *)

Lemma fmul_comm (x y : float) : fmul x y = fmul y x.
Proof.
  unfold fmul, SFmul.
  destruct x as [sx|sx| |sx mx ex], y as [sy|sy| |sy my ey];
    try reflexivity; try (now rewrite xorb_comm).
  now rewrite xorb_comm, Pos.mul_comm, Z.add_comm.
Qed.

(** X19.  The specular term does not tell the light from the eye:
    exchanging the two directions leaves the power and the specular
    factor unchanged, for every input and every power function. *)
Theorem specular_exchanges_light_and_eye :
  forall (powf : float -> float -> float) (specular : vec3) (p : float)
         (tangent light eye : vec3),
    specular_factor powf p tangent light eye
    = specular_factor powf p tangent eye light
    /\ specular_colors powf specular p tangent light eye
       = specular_colors powf specular p tangent eye light.
Proof.
  intros powf specular p tangent light eye.
  assert (specular_factor powf p tangent light eye
          = specular_factor powf p tangent eye light) as Hf.
  { unfold specular_factor, specular_power, cosTL, cosTE, sinTL, sinTE.
    unfold cosTL, cosTE.
    now rewrite (fmul_comm (dot light tangent)),
      (fmul_comm (fsqrt (one_minus_squared (dot light tangent)))). }
  split; [exact Hf|].
  unfold specular_colors. now rewrite Hf.
Qed.

(** X20.  A light at a right angle to the tangent gives the whole
    diffuse colour: when the cosine for the light is zero, of either
    sign, the sine is exactly one and the diffuse term is the diffuse
    colour itself, for finite colours. *)
Theorem diffuse_full_when_perpendicular :
  forall (diffuse tangent light : vec3),
    is_zero (cosTL tangent light) = true ->
    all3 is_finite diffuse = true ->
    sinTL tangent light = f1
    /\ diffuse_colors diffuse tangent light = diffuse.
Proof.
  intros diffuse tangent light Hzero Hd.
  assert (sinTL tangent light = f1) as Hsin.
  { unfold sinTL. destruct (cosTL tangent light) as [s|s| |s m e];
      try discriminate. now destruct s. }
  split; [exact Hsin|].
  unfold all3 in Hd.
  apply andb_prop in Hd. destruct Hd as [Hd Hz].
  apply andb_prop in Hd. destruct Hd as [Hx Hy].
  unfold diffuse_colors, scale. rewrite Hsin.
  rewrite !fmul_one by assumption. now destruct diffuse.
Qed.

(** X20 at the tangent [(0, 0, 1)] under a light along [(0, 1, 0)]. *)
Lemma diffuse_full_when_perpendicular_witness :
  diffuse_colors hair_diffuse axis_z axis_y = hair_diffuse.
Proof.
  apply (diffuse_full_when_perpendicular hair_diffuse axis_z axis_y);
    reflexivity.
Defined.

(* ------------------------------------------------------------------ *)
(** ** Opposite numbers *)













(* ------------------------------------------------------------------ *)
(** ** Results that are not a negative zero *)














